(** * finanzen-fundamentals: the stock scrapers of [stocks.py]

    A shallow embedding of [finanzen_fundamentals/stocks.py] and
    [finanzen_fundamentals/scraper.py], and the properties of the
    specification checked against it.

    Conventions of the embedding.
    - A Python [str] is a [string] of bytes (UTF-8).  [lower], [upper],
      [strip], [int], [float] and the regular expression class [\d] act on
      the ASCII range; bytes above 127 are left alone and are neither digits
      nor white space.
    - A Python [float] is the decimal number its literal denotes,
      [Finite neg m e] standing for (-1)^neg * m * 10^e; the rounding to a
      binary64 is not part of the model.
    - Exceptions are values of [exn]; fallible pure code returns [res].
    - Code that talks to the network or to the interpreter's global state is
      a [prog]: a tree of requests whose leaves are results. *)

From Stdlib Require Import String Ascii List ZArith NArith Lia Bool.
Import ListNotations.
Open Scope string_scope.

Set Implicit Arguments.
Set Warnings "-register-all".

(* ================================================================= *)
(** * Exceptions and fallible computations *)

Inductive exn : Type :=
| ValueError (msg : string)
| NoDataException (msg : string)
| AttributeError
| TypeError
| IndexError
| KeyError
| UnboundLocalError
| RequestException
| SystemExit
| HelperError.            (* raised inside a helper that is not in stocks.py *)

Inductive res (A : Type) : Type :=
| Ok (a : A)
| Err (e : exn).
Arguments Err {A} e.

Definition res_bind {A B} (m : res A) (k : A -> res B) : res B :=
  match m with
  | Ok a => k a
  | Err e => Err e
  end.

Declare Scope res_scope.
Delimit Scope res_scope with res.
Notation "x <- m ;; k" := (res_bind m (fun x => k))
  (at level 61, m at next level, right associativity) : res_scope.
Notation "' pat <- m ;; k" := (res_bind m (fun x => match x with pat => k end))
  (at level 61, pat pattern, m at next level, right associativity) : res_scope.

(** [[f(x) for x in l]] where [f] may raise: the first failure wins. *)
Fixpoint res_map {A B} (f : A -> res B) (l : list A) : res (list B) :=
  match l with
  | [] => Ok []
  | x :: l' =>
      (y <- f x ;; ys <- res_map f l' ;; Ok (y :: ys))%res
  end.

(** [for x in l: s = body(s, x)] where [body] may raise. *)
Fixpoint res_fold {A S} (body : S -> A -> res S) (l : list A) (s : S) : res S :=
  match l with
  | [] => Ok s
  | x :: l' => (s' <- body s x ;; res_fold body l' s')%res
  end.

(** A list index [l[i]]. *)
Definition index {A} (l : list A) (i : nat) : res A :=
  match nth_error l i with
  | Some a => Ok a
  | None => Err IndexError
  end.

(* ================================================================= *)
(** * Strings *)

Module Str.

Definition is_upper (c : ascii) : bool :=
  (65 <=? nat_of_ascii c)%nat && (nat_of_ascii c <=? 90)%nat.
Definition is_lower (c : ascii) : bool :=
  (97 <=? nat_of_ascii c)%nat && (nat_of_ascii c <=? 122)%nat.
Definition is_digit (c : ascii) : bool :=
  (48 <=? nat_of_ascii c)%nat && (nat_of_ascii c <=? 57)%nat.
(** The ASCII characters for which [str.isspace] holds. *)
Definition is_space (c : ascii) : bool :=
  let n := nat_of_ascii c in
  ((9 <=? n)%nat && (n <=? 13)%nat) || ((28 <=? n)%nat && (n <=? 32)%nat).

Definition lower_char (c : ascii) : ascii :=
  if is_upper c then ascii_of_nat (nat_of_ascii c + 32) else c.
Definition upper_char (c : ascii) : ascii :=
  if is_lower c then ascii_of_nat (nat_of_ascii c - 32) else c.

Fixpoint map (f : ascii -> ascii) (s : string) : string :=
  match s with
  | EmptyString => EmptyString
  | String c s' => String (f c) (map f s')
  end.

Definition lower : string -> string := map lower_char.
Definition upper : string -> string := map upper_char.

Definition startswith (s p : string) : bool := prefix p s.

Fixpoint drop (n : nat) (s : string) : string :=
  match n, s with
  | S k, String _ s' => drop k s'
  | _, _ => s
  end.

Fixpoint take (n : nat) (s : string) : string :=
  match n, s with
  | S k, String c s' => String c (take k s')
  | _, _ => EmptyString
  end.

Definition endswith (s suf : string) : bool :=
  (String.length suf <=? String.length s)%nat
  && (drop (String.length s - String.length suf) s =? suf).

(** [pat in s]. *)
Fixpoint contains (pat s : string) : bool :=
  prefix pat s ||
  match s with
  | EmptyString => false
  | String _ s' => contains pat s'
  end.

(** [s.replace(old, new)] for a non-empty [old]: the occurrences are taken
    from the left and do not overlap.  [skip] counts the characters of an
    occurrence that are still to be passed over. *)
Fixpoint replace_from (old new : string) (skip : nat) (s : string) : string :=
  match s with
  | EmptyString => EmptyString
  | String c s' =>
      match skip with
      | S k => replace_from old new k s'
      | O =>
          if prefix old s
          then new ++ replace_from old new (String.length old - 1) s'
          else String c (replace_from old new 0 s')
      end
  end.
Definition replace (old new s : string) : string := replace_from old new 0 s.

(** [s.split(sep)] for a non-empty [sep]. *)
Fixpoint split_from (sep : string) (skip : nat) (cur : string) (s : string)
  : list string :=
  match s with
  | EmptyString => [cur]
  | String c s' =>
      match skip with
      | S k => split_from sep k cur s'
      | O =>
          if prefix sep s
          then cur :: split_from sep (String.length sep - 1) EmptyString s'
          else split_from sep 0 (cur ++ String c EmptyString) s'
      end
  end.
Definition split (sep s : string) : list string :=
  split_from sep 0 EmptyString s.

Fixpoint lstrip (s : string) : string :=
  match s with
  | String c s' => if is_space c then lstrip s' else s
  | EmptyString => EmptyString
  end.

Fixpoint rstrip (s : string) : string :=
  match s with
  | EmptyString => EmptyString
  | String c s' =>
      match rstrip s' with
      | EmptyString => if is_space c then EmptyString else String c EmptyString
      | r => String c r
      end
  end.

Definition strip (s : string) : string := rstrip (lstrip s).

(** [sep.join(l)]. *)
Definition join (sep : string) (l : list string) : string := String.concat sep l.

(** [re.sub(c, repl, s)] for a pattern that matches the one character [c]. *)
Fixpoint re_sub_char (c : ascii) (repl : string) (s : string) : string :=
  match s with
  | EmptyString => EmptyString
  | String a s' =>
      if Ascii.eqb a c then repl ++ re_sub_char c repl s'
      else String a (re_sub_char c repl s')
  end.

(** [re.sub("[^...]", empty, s)]: the characters outside the class are
    deleted, those for which [keep] holds stay. *)
Fixpoint re_sub_delete_outside (keep : ascii -> bool) (s : string) : string :=
  match s with
  | EmptyString => EmptyString
  | String a s' =>
      if keep a then String a (re_sub_delete_outside keep s')
      else re_sub_delete_outside keep s'
  end.

(** [x in l] for a list of strings. *)
Definition mem (x : string) (l : list string) : bool :=
  existsb (String.eqb x) l.

End Str.

(* ================================================================= *)
(** * The builtins [int] and [float] *)

(** A float as the decimal it was read from. *)
Inductive pyfloat : Type :=
| Finite (neg : bool) (m : N) (e : Z)     (* (-1)^neg * m * 10^e *)
| Infinity (neg : bool)
| NaN.

Module Num.

Definition digit_val (c : ascii) : N := N_of_ascii c - 48.

(** The rest of a [digitpart ::= digit (["_"] digit)*] once its first digit
    is read: the value so far, the number of digits so far, the input. *)
Fixpoint digits_tail (acc : N) (n : nat) (s : string) : N * nat * string :=
  match s with
  | String c s' =>
      if Str.is_digit c then digits_tail (acc * 10 + digit_val c) (S n) s'
      else if Ascii.eqb c "_" then
        match s' with
        | String d s'' =>
            if Str.is_digit d
            then digits_tail (acc * 10 + digit_val d) (S n) s''
            else (acc, n, s)
        | EmptyString => (acc, n, s)
        end
      else (acc, n, s)
  | EmptyString => (acc, n, s)
  end.

Definition digitpart (s : string) : option (N * nat * string) :=
  match s with
  | String c s' =>
      if Str.is_digit c then Some (digits_tail (digit_val c) 1 s') else None
  | EmptyString => None
  end.

(** An optional sign: [true] for "-". *)
Definition sign (s : string) : bool * string :=
  match s with
  | String "-" s' => (true, s')
  | String "+" s' => (false, s')
  | _ => (false, s)
  end.

(** [int(s)] for a string argument, base 10. *)
Definition int (s : string) : res Z :=
  let (neg, s1) := sign (Str.strip s) in
  match digitpart s1 with
  | Some (v, _, EmptyString) =>
      Ok (if neg then (- Z.of_N v)%Z else Z.of_N v)
  | _ => Err (ValueError "invalid literal for int() with base 10")
  end.

(** [number ::= [digitpart] "." digitpart | digitpart ["."]]: the digits
    read as one integer, the number of digits after the point, the rest. *)
Definition number (s : string) : option (N * nat * string) :=
  match digitpart s with
  | Some (i, _, String "." r) =>
      match digitpart r with
      | Some (f, k, r') => Some ((i * 10 ^ N.of_nat k + f)%N, k, r')
      | None => Some (i, O, r)
      end
  | Some (i, _, r) => Some (i, O, r)
  | None =>
      match s with
      | String "." r =>
          match digitpart r with
          | Some (f, k, r') => Some (f, k, r')
          | None => None
          end
      | _ => None
      end
  end.

(** [exponent ::= ("e" | "E") ["+" | "-"] digitpart], or nothing; the
    input has to end after it. *)
Definition exponent (s : string) : option Z :=
  match s with
  | EmptyString => Some 0%Z
  | String c r =>
      if Ascii.eqb c "e" || Ascii.eqb c "E" then
        let (neg, r1) := sign r in
        match digitpart r1 with
        | Some (v, _, EmptyString) =>
            Some (if neg then (- Z.of_N v)%Z else Z.of_N v)
        | _ => None
        end
      else None
  end.

Definition float_error : exn := ValueError "could not convert string to float".

(** [float(s)] for a string argument. *)
Definition float (s : string) : res pyfloat :=
  let (neg, s1) := sign (Str.strip s) in
  let w := Str.lower s1 in
  if (w =? "inf") || (w =? "infinity") then Ok (Infinity neg)
  else if w =? "nan" then Ok NaN
  else
    match number s1 with
    | Some (m, k, r) =>
        match exponent r with
        | Some e => Ok (Finite neg m (e - Z.of_nat k))
        | None => Err float_error
        end
    | None => Err float_error
    end.

End Num.

(* ================================================================= *)
(** * Python dictionaries

    A [dict] keeps its keys in the order of their first insertion; setting a
    key that is present overwrites the value in place. *)

Module Dict.
Section Keyed.
Variables K V : Type.
Variable eqb : K -> K -> bool.

Definition t := list (K * V).

Fixpoint set (k : K) (v : V) (d : t) : t :=
  match d with
  | [] => [(k, v)]
  | (k', v') :: d' =>
      if eqb k k' then (k', v) :: d' else (k', v') :: set k v d'
  end.

Fixpoint get (k : K) (d : t) : option V :=
  match d with
  | [] => None
  | (k', v') :: d' => if eqb k k' then Some v' else get k d'
  end.

(** [dict(pairs)]. *)
Definition of_pairs (l : list (K * V)) : t :=
  fold_left (fun d kv => set (fst kv) (snd kv) d) l [].

Definition keys (d : t) : list K := List.map fst d.
Definition values (d : t) : list V := List.map snd d.
End Keyed.
End Dict.

(* ================================================================= *)
(** * The parse tree of BeautifulSoup *)

Inductive node : Type :=
| Tag (name : string) (classes : list string)
      (attrs : list (string * string)) (children : list node)
| NavigableString (text : string).

Module Soup.

Definition is_tag (name : string) (n : node) : bool :=
  match n with
  | Tag nm _ _ _ => nm =? name
  | NavigableString _ => false
  end.

Definition has_class (cls : string) (n : node) : bool :=
  match n with
  | Tag _ cs _ _ => Str.mem cls cs
  | NavigableString _ => false
  end.

(** The nodes below [n] in document order, each with its parent. *)
Fixpoint descendants_with_parent (n : node) : list (node * node) :=
  match n with
  | Tag _ _ _ cs =>
      (fix go (l : list node) : list (node * node) :=
         match l with
         | [] => []
         | c :: l' => (((n, c) :: descendants_with_parent c) ++ go l')%list
         end) cs
  | NavigableString _ => []
  end.

Definition descendants (n : node) : list node :=
  List.map snd (descendants_with_parent n).

(** [n.find_all(name)]. *)
Definition find_all (name : string) (n : node) : list node :=
  filter (is_tag name) (descendants n).

(** [n.find(name)]: [None] when there is none. *)
Definition find (name : string) (n : node) : option node :=
  hd_error (find_all name n).

(** [n.find(name, {"class": cls})]. *)
Definition find_class (name cls : string) (n : node) : option node :=
  List.find (fun c => is_tag name c && has_class cls c) (descendants n).

(** [n.get_text()]: all the strings below [n], concatenated. *)
Fixpoint get_text (n : node) : string :=
  match n with
  | NavigableString s => s
  | Tag _ _ _ cs =>
      (fix go (l : list node) : string :=
         match l with
         | [] => EmptyString
         | c :: l' => get_text c ++ go l'
         end) cs
  end.

(** [n.string]: the string of a tag that has one child, through single
    children; [None] otherwise. *)
Fixpoint tag_string (n : node) : option string :=
  match n with
  | NavigableString s => Some s
  | Tag _ _ _ [c] => tag_string c
  | Tag _ _ _ _ => None
  end.

(** [re.compile(pattern).search(s)] for the patterns of this program: a
    literal text, after "^" at the start of [s] only. *)
Definition re_search (pattern s : string) : bool :=
  match pattern with
  | String "^" p => Str.startswith s p
  | _ => Str.contains pattern s
  end.

(** [n.find(name, text=re.compile(pattern)).parent]: the parent of the
    first [name] tag whose [.string] the pattern is found in.  When there
    is no such tag, [find] gives [None], which has no [parent]. *)
Definition find_text_parent (name pattern : string) (n : node) : res node :=
  match
    List.find
      (fun pc =>
         is_tag name (snd pc) &&
         match tag_string (snd pc) with
         | Some s => re_search pattern s
         | None => false
         end)
      (descendants_with_parent n)
  with
  | Some (p, _) => Ok p
  | None => Err AttributeError
  end.

(** [n[key]]. *)
Definition attr (key : string) (n : node) : res string :=
  match n with
  | Tag _ _ attrs _ =>
      match List.find (fun kv => fst kv =? key) attrs with
      | Some (_, v) => Ok v
      | None => Err KeyError
      end
  | NavigableString _ => Err TypeError
  end.

(** [x.get_text()] where [x] is the result of a [find]. *)
Definition get_text_opt (x : option node) : res string :=
  match x with
  | Some n => Ok (get_text n)
  | None => Err AttributeError
  end.

End Soup.

(* ================================================================= *)
(** * The tables of the fundamentals and estimates pages *)

(** Metric name to (year to value); [None] is the absent value. *)
Definition year_values := Dict.t Z (option pyfloat).
Definition table_dict := Dict.t string year_values.
Definition label_values := Dict.t string (option pyfloat).
Definition estimates_dict := Dict.t string label_values.

(** One cell of a fundamentals row, lines 58 to 60 of stocks.py. *)
Definition fundamentals_cell (x : string) : res (option pyfloat) :=
  let x := Str.re_sub_char "." EmptyString x in
  let x := Str.re_sub_char "," "." x in
  if negb (Str.mem x ["-"; "< 0 *"])
  then (v <- Num.float x ;; Ok (Some v))%res
  else Ok None.

Definition is_digit_or_comma (c : ascii) : bool :=
  Str.is_digit c || Ascii.eqb c ",".

(** One cell of an estimates row, lines 149 to 152 of stocks.py. *)
Definition estimates_cell (x : string) : res (option pyfloat) :=
  let x := if negb (x =? "-") then Some x else None in
  let x := option_map (Str.re_sub_delete_outside is_digit_or_comma) x in
  let x := option_map (Str.re_sub_char "," ".") x in
  match x with
  | Some x => (v <- Num.float x ;; Ok (Some v))%res
  | None => Ok None
  end.

(** The body of the loop of [_parse_table] for one row. *)
Definition parse_table_row (years : list Z) (table_dict0 : table_dict)
    (row : node) : res table_dict :=
  (name <- Soup.get_text_opt (Soup.find_class "td" "font-bold" row) ;;
   let row_data := Soup.find_all "td" row in
   let row_data := skipn 2 row_data in
   let row_data := List.map Soup.get_text row_data in
   row_data <- res_map fundamentals_cell row_data ;;
   Ok (Dict.set String.eqb name
         (Dict.of_pairs Z.eqb (combine years row_data)) table_dict0))%res.

(** [_parse_table(soup, signaler)], lines 48 to 62. *)
Definition _parse_table (soup : node) (signaler : string) : res table_dict :=
  (table <- Soup.find_text_parent "h2" signaler soup ;;
   years <- res_map (fun x => Num.int (Soup.get_text x))
              (skipn 2 (Soup.find_all "th" table)) ;;
   let rows := skipn 1 (Soup.find_all "tr" table) in
   res_fold (parse_table_row years) rows [])%res.

(** [try: x = m  except Exception: x = None]. *)
Definition try_or_none {A} (m : res A) : option A :=
  match m with
  | Ok a => Some a
  | Err _ => None
  end.

(** The body of the loop of [get_estimates] for one row, lines 145 to 153. *)
Definition estimates_row (years : list string) (table_dict0 : estimates_dict)
    (row : node) : res estimates_dict :=
  (let fields := Soup.find_all "td" row in
   let fields := List.map Soup.get_text fields in
   name <- index fields 0 ;;
   let row_data := skipn 1 fields in
   row_data <- res_map estimates_cell row_data ;;
   Ok (Dict.set String.eqb name
         (Dict.of_pairs String.eqb (combine years row_data)) table_dict0))%res.

(** Lines 138 to 153 of [get_estimates]. *)
Definition estimates_table (soup : node) : res estimates_dict :=
  (table <- Soup.find_text_parent "h1" "^Schätzungen" soup ;;
   let years := skipn 1 (Soup.find_all "th" table) in
   let years := List.map Soup.get_text years in
   let rows := skipn 1 (Soup.find_all "tr" table) in
   res_fold (estimates_row years) rows [])%res.

(* ================================================================= *)
(** * Effects: the network and the state of the interpreter

    [requests.get] is the only access to the outside.  The state of the
    process that the functions of stocks.py can reach is the list objects
    that are the default values of the [results] parameters: a default
    value is made once, when the [def] is executed, and every call that
    leaves the argument out gets that same object.  The functions also
    hand messages to [warnings.warn].  Whether such a message is printed is
    decided inside the [warnings] module, by filters and registries that
    library code resets (the [catch_warnings] of pandas does); that is not
    part of the model, which keeps the messages handed over. *)

Definition loc := nat.

Record pstate : Type := {
  heap : list (list string);        (* the list objects, by location *)
  warned : list string              (* the messages handed to warnings.warn *)
}.

(** The requests a function can make while it runs: [requests.get],
    [warnings.warn], and the reading and the growing of a list object, which
    is what Python code can do with a [results] it was handed.  A leaf is
    the value returned or the exception raised. *)
Inductive prog (A : Type) : Type :=
| Ret (a : A)
| Raise (e : exn)
| HttpGet (url : string) (k : option string -> prog A)
| Warn (msg : string) (k : prog A)
| ListLoad (l : loc) (k : list string -> prog A)
| ListAppend (l : loc) (v : string) (k : prog A).
Arguments Raise {A} e.
Arguments HttpGet {A} url k.
Arguments Warn {A} msg k.
Arguments ListLoad {A} l k.
Arguments ListAppend {A} l v k.

Fixpoint bind {A B} (m : prog A) (f : A -> prog B) : prog B :=
  match m with
  | Ret a => f a
  | Raise e => Raise e
  | HttpGet url k => HttpGet url (fun r => bind (k r) f)
  | Warn msg k => Warn msg (bind k f)
  | ListLoad l k => ListLoad l (fun v => bind (k v) f)
  | ListAppend l v k => ListAppend l v (bind k f)
  end.

Declare Scope prog_scope.
Delimit Scope prog_scope with prog.
Notation "x <- m ;; k" := (bind m (fun x => k))
  (at level 61, m at next level, right associativity) : prog_scope.

(** A pure computation that may raise, inside a [prog]. *)
Definition lift {A} (m : res A) : prog A :=
  match m with
  | Ok a => Ret a
  | Err e => Raise e
  end.

(** [for x in l: s = body(s, x)]. *)
Fixpoint for_each {A S} (l : list A) (s : S) (body : S -> A -> prog S)
  : prog S :=
  match l with
  | [] => Ret s
  | x :: l' => (s' <- body s x ;; for_each l' s' body)%prog
  end.

(** [warnings.warn(msg, DeprecationWarning)]: the message is handed to the
    [warnings] module, at every call, and the call returns: under the
    filter that stocks.py installs when it is imported
    ([simplefilter('once')], line 25) no warning is raised as an
    exception. *)
Definition warn (msg : string) (st : pstate) : pstate :=
  {| heap := heap st;
     warned := (warned st ++ [msg])%list |}.

Definition heap_load (l : loc) (st : pstate) : list string := nth l (heap st) [].

Fixpoint update_nth {A} (n : nat) (f : A -> A) (l : list A) : list A :=
  match l, n with
  | [], _ => []
  | x :: l', O => f x :: l'
  | x :: l', S k => x :: update_nth k f l'
  end.

Definition heap_append (l : loc) (v : string) (st : pstate) : pstate :=
  {| heap := update_nth l (fun o => o ++ [v])%list (heap st);
     warned := warned st |}.

(** What the site answers: to the [i]-th request of a call, for a URL;
    [None] when [requests.get] raises. *)
Definition web := nat -> string -> option string.

Record outcome (A : Type) : Type := {
  result : res A;
  final : pstate;
  requests : list string          (* the URLs requested, in order *)
}.

Fixpoint run_from {A} (p : prog A) (w : web) (i : nat) (st : pstate)
  : outcome A :=
  match p with
  | Ret a => {| result := Ok a; final := st; requests := [] |}
  | Raise e => {| result := Err e; final := st; requests := [] |}
  | HttpGet url k =>
      let o := run_from (k (w i url)) w (S i) st in
      {| result := result o; final := final o;
         requests := url :: requests o |}
  | Warn msg k => run_from k w i (warn msg st)
  | ListLoad l k => run_from (k (heap_load l st)) w i st
  | ListAppend l v k => run_from k w i (heap_append l v st)
  end.

Definition run {A} (p : prog A) (w : web) (st : pstate) : outcome A :=
  run_from p w 0 st.

(* ================================================================= *)
(** * What stocks.py imports

    The modules [statics], [functions] and [search] of the package and the
    libraries bs4, lxml and pandas are not part of the sources; what
    stocks.py uses of them is a parameter of the development. *)

Inductive cell : Type :=
| CStr (s : string)
| CFloat (f : pyfloat).

Record env : Type := {
  (* statics.py *)
  exchanges : list string;
  StockMarkets : Dict.t string (string * string);   (* url_postfix, real_name *)
  (* functions.py; [None] when the helper raises *)
  check_data : node -> bool;
  parse_price : string -> option (pyfloat * string);
  datetime : Type;
  parse_timestamp : string -> option datetime;
  (* bs4 *)
  BeautifulSoup : string -> node;
  (* lxml; the two kinds of result of an XPath query *)
  element : Type;
  fromstring : string -> option element;
  xpath : element -> string -> list element;
  xpath_text : element -> string -> list string;
  iter_children : element -> list element;
  (* pandas *)
  frame : Type;
  (* pd.DataFrame(list(map(np.ravel, t))), the first row made the header *)
  frame_of_table : list (list cell) -> option frame;
  (* pd.DataFrame(data=rows, columns=cols) *)
  frame_of_rows : list string -> list (list cell) -> option frame;
  (* pd.concat(l, ignore_index=True) *)
  concat_frames : list frame -> option frame;
  (* the matches on a search page, each with its category *)
  search_matches : node -> list (string * (string * string * string * string));
  (* the interpreter's Unicode table: [str.isprintable] of a code point *)
  isprintable : N -> bool
}.

Definition external {A} (x : option A) : res A :=
  match x with
  | Some a => Ok a
  | None => Err HelperError
  end.

(* ================================================================= *)
(** * stocks.py *)

(** A row of the frame of [get_fundamentals]: the columns Category, Metric,
    Year and Value. *)
Definition fundamentals_row : Type := string * string * Z * option pyfloat.

(** A row of the frame of [get_estimates]: the columns Metric, Year, Value. *)
Definition estimates_frame_row : Type := string * string * option pyfloat.

Inductive fundamentals_out : Type :=
| FundamentalsDict (d : Dict.t string (option table_dict))
| FundamentalsFrame (rows : list fundamentals_row).

Inductive estimates_out : Type :=
| EstimatesDict (d : estimates_dict)
| EstimatesFrame (rows : list estimates_frame_row).

Record price_record (D : Type) : Type := {
  Price : pyfloat;
  Currency : string;
  Timestamp : D;
  Stock : string;
  Exchange : string
}.

Inductive price_out (D : Type) : Type :=
| PriceDict (r : price_record D)
| PriceFrame (rows : list (price_record D)).

(** The columns name, fn_stock_name, isin and wkn of a search result. *)
Definition search_row : Type := string * string * string * string.

Definition newline : string := String (ascii_of_nat 10) EmptyString.

(** [re.sub(suffix + "$", empty, s)] for a literal [suffix]: "$" matches at the
    end of [s] and before a newline that ends [s]. *)
Definition re_sub_at_end (suffix s : string) : string :=
  if Str.endswith s suffix
  then Str.take (String.length s - String.length suffix) s
  else if Str.endswith s (suffix ++ newline)
  then Str.take (String.length s - String.length suffix - 1) s ++ newline
  else s.

(** [pd.concat(l)]. *)
Definition pd_concat {A} (l : list (list A)) : res (list A) :=
  match l with
  | [] => Err (ValueError "No objects to concatenate")
  | _ => Ok (List.concat l)
  end.

(** Lines 107 to 114: the frames of the metrics, category by category;
    a category that is [None] cannot be iterated. *)
Fixpoint fundamentals_frames (fundamentals : Dict.t string (option table_dict))
    (df_list : list (list fundamentals_row))
  : res (list (list fundamentals_row)) :=
  match fundamentals with
  | [] => Ok df_list
  | (f, None) :: _ => Err TypeError
  | (f, Some metrics) :: rest =>
      fundamentals_frames rest
        (df_list ++
         List.map (fun iv : string * year_values =>
                     List.map (fun yv : Z * option pyfloat =>
                                 (f, fst iv, fst yv, snd yv))
                              (snd iv))
                  metrics)%list
  end.

(** Lines 159 to 165. *)
Definition estimates_frames (table_dict0 : estimates_dict)
  : list (list estimates_frame_row) :=
  List.map (fun fv : string * label_values =>
              List.map (fun yv : string * option pyfloat =>
                          (fst fv, fst yv, snd yv))
                       (snd fv))
           table_dict0.

(** [%r] of a string, as the interpreter's [repr] writes it.  The quotes are
    single, unless the string has a single quote and no double quote.  The
    quote in use and the backslash are escaped; tab, newline and return are
    written with their letters, the other control characters of ASCII in
    hexadecimal.  A character outside ASCII is copied when it is printable
    and written as [\xNN], [\uNNNN] or [\UNNNNNNNN], by the size of its
    code point, when it is not. *)
Definition double_quote : ascii := ascii_of_nat 34.
Definition backslash : ascii := ascii_of_nat 92.

Fixpoint has_char (c : ascii) (s : string) : bool :=
  match s with
  | EmptyString => false
  | String a s' => Ascii.eqb a c || has_char c s'
  end.

Definition hex_digit (n : N) : ascii :=
  match String.get (N.to_nat n) "0123456789abcdef" with
  | Some c => c
  | None => "0"%char
  end.

(** The last [k] hexadecimal digits of [n]. *)
Fixpoint hex (k : nat) (n : N) : string :=
  match k with
  | O => EmptyString
  | S k' => hex k' (n / 16) ++ String (hex_digit (n mod 16)) EmptyString
  end.

(** A character of the ASCII range. *)
Definition repr_char (quote c : ascii) : string :=
  let n := N_of_ascii c in
  if Ascii.eqb c quote || Ascii.eqb c backslash
  then String backslash (String c EmptyString)
  else if (n =? 9)%N then String backslash "t"
  else if (n =? 10)%N then String backslash "n"
  else if (n =? 13)%N then String backslash "r"
  else if (n <? 32)%N || (n =? 127)%N
  then String backslash (String "x" (hex 2 n))
  else String c EmptyString.

(** A character outside ASCII: its code point, and the bytes that encode
    it. *)
Definition repr_code (printable : N -> bool) (cp : N) (bytes : string)
  : string :=
  if printable cp then bytes
  else if (cp <? 256)%N then String backslash (String "x" (hex 2 cp))
  else if (cp <? 65536)%N then String backslash (String "u" (hex 4 cp))
  else String backslash (String "U" (hex 8 cp)).

(** The characters of the string in turn.  Inside a character that takes
    several bytes, [bytes] are those read so far, [cp] the bits of the code
    point they carry and [need] the number of bytes that are still to
    come.  A [str] is well-formed UTF-8; bytes that are not are copied. *)
Fixpoint repr_from (printable : N -> bool) (quote : ascii)
    (bytes : string) (cp : N) (need : nat) (s : string) : string :=
  match s with
  | EmptyString => bytes
  | String c s' =>
      let n := N_of_ascii c in
      match need with
      | O =>
          if (n <? 128)%N
          then repr_char quote c
               ++ repr_from printable quote EmptyString 0 0 s'
          else if (192 <=? n)%N && (n <? 224)%N
          then repr_from printable quote (String c EmptyString)
                 (N.land n 31) 1 s'
          else if (224 <=? n)%N && (n <? 240)%N
          then repr_from printable quote (String c EmptyString)
                 (N.land n 15) 2 s'
          else if (240 <=? n)%N && (n <? 248)%N
          then repr_from printable quote (String c EmptyString)
                 (N.land n 7) 3 s'
          else String c (repr_from printable quote EmptyString 0 0 s')
      | S k =>
          let cp' := (cp * 64 + N.land n 63)%N in
          let bytes' := bytes ++ String c EmptyString in
          match k with
          | O => repr_code printable cp' bytes'
                 ++ repr_from printable quote EmptyString 0 0 s'
          | S _ => repr_from printable quote bytes' cp' k s'
          end
      end
  end.

Definition repr (printable : N -> bool) (s : string) : string :=
  let quote :=
    if has_char "'" s && negb (has_char double_quote s)
    then double_quote else "'"%char in
  String quote
    (repr_from printable quote EmptyString 0 0 s ++ String quote EmptyString).

Definition output_error : exn :=
  ValueError "Please choose either 'dict' or 'dataframe' for input".
Definition price_output_error : exn :=
  ValueError "Output should be either 'dict' or 'dataframe'".

(** [requests.get(url)], as the body of the response. *)
Definition requests_get (url : string) : prog string :=
  HttpGet url (fun r =>
    match r with
    | Some body => Ret body
    | None => Raise RequestException
    end).

Section Stocks.

Variable E : env.

(** scraper.py: [_make_soup(url)]. *)
Definition _make_soup (url : string) : prog node :=
  (src <- requests_get url ;; Ret (BeautifulSoup E src))%prog.

(** [stock.lower()], then "-aktie" taken off the end: lines 36 to 38 and
    127 to 129. *)
Definition strip_aktie (stock : string) : string :=
  let stock := Str.lower stock in
  if Str.endswith stock "-aktie" then re_sub_at_end "-aktie" stock else stock.

Definition get_fundamentals (stock output : string) : prog fundamentals_out :=
  if negb (Str.mem output ["dataframe"; "dict"]) then Raise output_error
  else
    let stock := strip_aktie stock in
    (soup <- _make_soup ("https://www.finanzen.net/bilanz_guv/" ++ stock) ;;
     if negb (check_data E soup)
     then Raise (NoDataException ("Could not find stock: " ++ stock))
     else
       let quote_info := try_or_none (_parse_table soup "Die Aktie") in
       let key_ratios := try_or_none (_parse_table soup "Unternehmenskennzahlen") in
       let income_info := try_or_none (_parse_table soup "GuV") in
       let balance_sheet := try_or_none (_parse_table soup "Bilanz") in
       let other_info := try_or_none (_parse_table soup "sonstige Angaben") in
       let fundamentals :=
         [("Quotes", quote_info);
          ("Key Ratios", key_ratios);
          ("Income Statement", income_info);
          ("Balance Sheet", balance_sheet);
          ("Other", other_info)] in
       if output =? "dict" then Ret (FundamentalsDict fundamentals)
       else
         lift (df_list <- fundamentals_frames fundamentals [] ;;
               fundamentals_df <- pd_concat df_list ;;
               Ok (FundamentalsFrame fundamentals_df))%res)%prog.

Definition get_estimates (stock output : string) : prog estimates_out :=
  if negb (Str.mem output ["dataframe"; "dict"]) then Raise output_error
  else
    let stock := strip_aktie stock in
    (soup <- _make_soup ("https://www.finanzen.net/schaetzungen/" ++ stock) ;;
     if negb (check_data E soup)
     then Raise (NoDataException ("Could not find stock: " ++ stock))
     else
       table_dict0 <- lift (estimates_table soup) ;;
       if output =? "dict" then Ret (EstimatesDict table_dict0)
       else
         lift (df <- pd_concat (estimates_frames table_dict0) ;;
               Ok (EstimatesFrame df))%res)%prog.

Definition exchange_error : exn :=
  ValueError ("'exchange' must be either one of: "
              ++ Str.join ", " (exchanges E)).

(** Lines 195 to 208 of [get_price]: the quote box, the price, the time. *)
Definition quote (soup : node)
  : res (pyfloat * string * datetime E) :=
  match Soup.find_class "div" "snapshot__values" soup with
  | None => Err (NoDataException "No price available")
  | Some quotebox =>
      (price <- Soup.get_text_opt
                  (Soup.find_class "span" "snapshot__value-current" quotebox) ;;
       pc <- external (parse_price E price) ;;
       timestamp <-
         match Soup.find_class "div" "snapshot__time" soup with
         | None => Err AttributeError
         | Some box =>
             match Soup.find "time" box with
             | None => Err TypeError
             | Some t => Soup.attr "datetime" t
             end
         end ;;
       timestamp <- external (parse_timestamp E timestamp) ;;
       Ok (fst pc, snd pc, timestamp))%res
  end.

Definition get_price (stock exchange output : string)
  : prog (price_out (datetime E)) :=
  let output := Str.lower output in
  let stock := Str.lower stock in
  let exchange := Str.upper exchange in
  if negb (Str.mem exchange (exchanges E)) then Raise exchange_error
  else if negb (Str.mem output ["dict"; "dataframe"])
  then Raise price_output_error
  else
    let url := "https://www.finanzen.net/aktien/" ++ stock
               ++ "@stBoerse_" ++ exchange in
    (soup <- _make_soup url ;;
     if negb (check_data E soup)
     then Raise (NoDataException ("Could not find stock: " ++ stock))
     else
       q <- lift (quote soup) ;;
       let '(price_float, currency, timestamp) := q in
       let result0 :=
         {| Price := price_float;
            Currency := currency;
            Timestamp := timestamp;
            Stock := stock;
            Exchange := exchange |} in
       if output =? "dataframe" then Ret (PriceFrame [result0])
       else Ret (PriceDict result0))%prog.

(** Modelled from the spec: [search] of finanzen_fundamentals/search.py,
    which is not among the sources.  The spec describes it as a shared
    search operation, filtered to the results of the category asked for,
    that honours an optional result-count limit: unlimited when the limit is
    negative, zero results when the limit is zero.  How the matches are read
    off the page is left to [search_matches]. *)
Definition search (term category : string) (limit : Z)
  : prog (list search_row) :=
  (soup <- _make_soup ("https://www.finanzen.net/suchergebnis.asp?_search="
                       ++ term) ;;
   let hits := List.map snd
                 (filter (fun h => fst h =? category) (search_matches E soup)) in
   Ret (if (limit <? 0)%Z then hits else firstn (Z.to_nat limit) hits))%prog.

Definition search_stock (stock : string) (limit : Z) : prog (list search_row) :=
  search stock "stock" limit.

End Stocks.

(* ================================================================= *)
(** * The helpers built on lxml (lines 237 to 480) *)

(** A double quote, for the XPath expressions. *)
Definition dq : string := String (ascii_of_nat 34) EmptyString.

Definition base_url : string := "https://www.finanzen.net".

Definition functions : Dict.t string string :=
  [("search", "/suchergebnis.asp?_search=");
   ("stock", "/aktien/");
   ("estimates", "/schaetzungen/");
   ("fundamentals", "/bilanz_guv/");
   ("index", "/index/")].

(** The objects made for the [results=[]] defaults when the four [def]s are
    executed, and the state right after the import. *)
Definition results_get_estimates_lxml : loc := 0.
Definition results_get_fundamentals_lxml : loc := 1.
Definition results_get_current_value_lxml : loc := 2.
Definition results_search_stock_lxml : loc := 3.

Definition import_state : pstate :=
  {| heap := [[]; []; []; []]; warned := [] |}.

(** [data[cnt] = f(data[cnt]) for cnt in range(1, len(data))]. *)
Definition map_from_1 {A} (f : A -> A) (data : list A) : list A :=
  match data with
  | [] => []
  | x :: data' => x :: List.map f data'
  end.

(** [(a, b) = s.split(sep)]. *)
Definition split_pair (sep s : string) : res (string * string) :=
  match Str.split sep s with
  | [a; b] => Ok (a, b)
  | _ => Err (ValueError "wrong number of values to unpack")
  end.

Definition plus_minus : string :=
  String (ascii_of_nat 194) (String (ascii_of_nat 177) EmptyString).

Section Legacy.

Variable E : env.

Definition check_site_availability (url : string) : prog unit :=
  HttpGet url (fun r =>
    match r with
    | Some _ => Ret tt
    | None => Raise SystemExit
    end).

Definition get_parser (function stock_name : string) : prog (element E) :=
  match Dict.get String.eqb function functions with
  | None =>
      Raise (ValueError ("Got unknown function " ++ repr (isprintable E) function
                         ++ " in get_parser"))
  | Some path =>
      (_ <- check_site_availability base_url ;;
       let url := base_url ++ path ++ stock_name in
       text <- requests_get url ;;
       lift (external (fromstring E text)))%prog
  end.

(** Lines 296 to 299: a value cell of an estimates row. *)
Definition estimates_lxml_value (c : cell) : res cell :=
  match c with
  | CStr x =>
      if negb (x =? "-") then
        (let x := Str.replace "," "." (Str.replace "." EmptyString x) in
         x0 <- index (Str.split " " x) 0 ;;
         v <- Num.float x0 ;;
         Ok (CFloat v))%res
      else Ok c
  | CFloat _ => Ok c
  end.

(** The state of the loop of [get_estimates_lxml]: [data_table],
    [header_row], and [dataframe] once it is bound. *)
Definition estimates_lxml_state : Type :=
  list (list cell) * Z * option (frame E).

(** Lines 291 to 308, the body of the loop. *)
Definition estimates_lxml_step (st : estimates_lxml_state)
    (data_element : element E) : res estimates_lxml_state :=
  let '(data_table, header_row, _) := st in
  (table_row <- res_map (fun i => index (xpath_text E i "./text()") 0)
                  (iter_children E data_element) ;;
   let table_row := List.map CStr table_row in
   rh <- (if negb (header_row =? 0)%Z then
            match table_row with
            | [] => Ok ([], header_row)
            | x :: rest =>
                (rest' <- res_map estimates_lxml_value rest ;;
                 Ok (x :: rest', header_row))
            end
          else
            match table_row with
            | [] => Err IndexError
            | _ :: rest => Ok (CStr "Estimation" :: rest, 1%Z)
            end) ;;
   let data_table := (data_table ++ [fst rh])%list in
   dataframe <- external (frame_of_table E data_table) ;;
   Ok (data_table, snd rh, Some dataframe))%res.

Definition get_estimates_lxml (stock : string) (results : loc)
  : prog (frame E) :=
  Warn "get_estimates_lxml() functionality now included in get_estimates()."
    (let url := "https://www.finanzen.net/schaetzungen/" ++ stock in
     let xp_base_xpath :=
       "//div[contains(@class, " ++ dq ++ "box table-quotes" ++ dq
       ++ ")]//h1[contains(text(), " ++ dq ++ "Schätzungen" ++ dq ++ ")]//.." in
     let xp_data := xp_base_xpath ++ "//table//tr" in
     (text <- requests_get url ;;
      parser <- lift (external (fromstring E text)) ;;
      st <- lift (res_fold estimates_lxml_step (xpath E parser xp_data)
                    ([], 0%Z, None)) ;;
      match snd st with
      | Some dataframe => Ret dataframe
      | None => Raise UnboundLocalError
      end)%prog).

(** Lines 344 to 364: the frame of one table of the fundamentals page. *)
Definition fundamentals_lxml_frame (data_element : element E)
  : res (frame E) :=
  let header_array :=
    xpath_text E data_element ".//table//thead//tr//th/text()" in
  let table_data := [header_array] in
  (* first_col: the first row is passed over *)
  let rows := skipn 1 (xpath E data_element ".//table//tr") in
  let table_data :=
    (table_data ++
     List.map (fun i =>
                 map_from_1
                   (fun x => Str.replace "," "." (Str.replace "." EmptyString x))
                   (xpath_text E i ".//td/text()"))
              rows)%list in
  external (frame_of_table E (List.map (List.map CStr) table_data)).

Definition fundamentals_tables : list string :=
  ["Die Aktie"; "Unternehmenskennzahlen"; "GuV"; "Bilanz"; "sonstige Angaben"].

Definition get_fundamentals_lxml (stock : string) (results : loc)
  : prog (frame E) :=
  Warn "get_fundamentals_lxml() functionality now included in get_fundamentals()."
    (complete_data_set <-
       for_each fundamentals_tables []
         (fun complete_data_set table =>
            (parser <- get_parser "fundamentals" stock ;;
             let xp_base :=
               "//div[contains(@class, " ++ dq ++ "box table-quotes" ++ dq
               ++ ")]//h2[contains(text(), " ++ dq ++ table ++ dq
               ++ ")]//.." in
             let parsed_data_table := xpath E parser xp_base in
             lift (res_fold
                     (fun acc data_element =>
                        (dataframe <- fundamentals_lxml_frame data_element ;;
                         Ok (acc ++ [dataframe])%list)%res)
                     parsed_data_table complete_data_set))%prog) ;;
     lift (external (concat_frames E complete_data_set)))%prog.

Definition market (exchange : string) : res (string * string) :=
  match Dict.get String.eqb exchange (StockMarkets E) with
  | Some m => Ok m
  | None => Err KeyError
  end.

Definition quotebox_xpath : string :=
  "//div[contains(@class," ++ dq ++ "row quotebox" ++ dq ++ ")]".

(** Lines 403 to 440: the row read off one quote box. *)
Definition current_value_row (table_data : element E) : res (list cell) :=
  let q := xpath_text E table_data in
  let raw_price :=
    q (quotebox_xpath ++ "[1]/div[contains(@class, " ++ dq ++ "col-xs-5"
       ++ dq ++ ")]/text()") in
  let raw_currency :=
    q (quotebox_xpath ++ "[1]/div[contains(@class, " ++ dq ++ "col-xs-5"
       ++ dq ++ ")]/span//text()") in
  let raw_change :=
    q (quotebox_xpath ++ "[1]/div[contains(@class, " ++ dq ++ "col-xs-4"
       ++ dq ++ ")]/text()") in
  let raw_percentage :=
    q (quotebox_xpath ++ "[1]/div[contains(@class, " ++ dq ++ "col-xs-3"
       ++ dq ++ ")]/text()") in
  let raw_name :=
    q ("//div[contains(@class, " ++ dq ++ "col-sm-5" ++ dq ++ ")]//h1/text()") in
  let raw_instrument_id :=
    q ("//span[contains(@class, " ++ dq ++ "instrument-id" ++ dq
       ++ ")]/text()") in
  let raw_time := q (quotebox_xpath ++ "/div[4]/div[1]/text()") in
  let raw_exchange := q (quotebox_xpath ++ "/div[4]/div[2]/text()") in
  let name := Str.strip (Str.join EmptyString raw_name) in
  let time := Str.strip (Str.join EmptyString raw_time) in
  let exchange := Str.strip (Str.join EmptyString raw_exchange) in
  let instrument_id := Str.strip (Str.join EmptyString raw_instrument_id) in
  (wi <- split_pair "/" instrument_id ;;
   let wkn := fst wi in
   isym <- (if Str.contains "Symbol" (snd wi)
          then split_pair "Symbol" (snd wi)
          else Ok (snd wi, EmptyString)) ;;
   let isin := fst isym in
   let sym := snd isym in
   let currency := Str.strip (Str.join EmptyString raw_currency) in
   p0 <- index raw_price 0 ;;
   price <- Num.float (Str.replace "," "." p0) ;;
   c0 <- index raw_change 0 ;;
   change <- Num.float (Str.replace plus_minus EmptyString (Str.replace "," "." c0)) ;;
   r0 <- index raw_percentage 0 ;;
   percentage <-
     Num.float (Str.replace plus_minus EmptyString (Str.replace "," "." r0)) ;;
   m <- market exchange ;;
   Ok [CStr (Str.replace "&nbsp" EmptyString name);
       CStr (Str.replace "WKN:" EmptyString (Str.replace " " EmptyString wkn));
       CStr (Str.replace "ISIN:" EmptyString (Str.replace " " EmptyString isin));
       CStr (Str.replace ":" EmptyString (Str.replace " " EmptyString sym));
       CFloat price;
       CStr currency;
       CFloat change;
       CFloat percentage;
       CStr time;
       CStr (snd m)])%res.

Definition data_columns : list string :=
  ["name"; "wkn"; "isin"; "symbol"; "price"; "currency"; "chg_to_open";
   "chg_percent"; "time"; "exchange"].

Definition get_current_value_lxml (stock exchange : string) (results : loc)
  : prog (frame E) :=
  Warn "get_current_value_lxml() functionality now included in get_price()."
    (m <- lift (market exchange) ;;
     let url := "https://www.finanzen.net/aktien/" ++ stock ++ "-aktie"
                ++ fst m in
     text <- requests_get url ;;
     parser <- lift (external (fromstring E text)) ;;
     let summary_table := xpath E parser (quotebox_xpath ++ "[1]") in
     summary_data <-
       lift (res_fold (fun _ table_data => current_value_row table_data)
               summary_table []) ;;
     lift (external (frame_of_rows E data_columns [summary_data])))%prog.

(** Lines 465 to 470: what is read off one row of the search page. *)
Definition search_lxml_row (table_element : element E) : res search_row :=
  let raw_name :=
    Str.strip (Str.join EmptyString (xpath_text E table_element ".//a/text()")) in
  let raw_link :=
    Str.strip (Str.join EmptyString (xpath_text E table_element ".//a//@href")) in
  (td1 <- index (xpath E table_element ".//td") 1 ;;
   let raw_isin := Str.strip (Str.join EmptyString (xpath_text E td1 "./text()")) in
   td2 <- index (xpath E table_element ".//td") 2 ;;
   let raw_wkn := Str.strip (Str.join EmptyString (xpath_text E td2 "./text()")) in
   let fn_stock_name :=
     Str.replace "-aktie" EmptyString
       (Str.replace "/aktien/" EmptyString raw_link) in
   Ok (raw_name, fn_stock_name, raw_isin, raw_wkn))%res.

(** Lines 460 to 478: the loop over the rows of the search page.  The
    result is the frame at the [break] or at the end of the rows. *)
Fixpoint search_lxml_rows (skip_first_element limit : Z) (df : list search_row)
    (summary_table : list (element E)) : res (list search_row) :=
  match summary_table with
  | [] => Ok df
  | table_element :: rest =>
      if (skip_first_element =? 0)%Z then search_lxml_rows 1 limit df rest
      else
        (row <- search_lxml_row table_element ;;
         if (limit =? 0)%Z then Ok df
         else if (limit >? 0)%Z
         then search_lxml_rows skip_first_element (limit - 1)
                (df ++ [row])%list rest
         else search_lxml_rows skip_first_element limit
                (df ++ [row])%list rest)%res
  end.

Definition table_xpath : string :=
  "//div[contains(@class, " ++ dq ++ "table" ++ dq ++ ")]//tr".

Definition search_stock_lxml (stock : string) (limit : Z) (results : loc)
  : prog (list search_row) :=
  let df := [] in
  (parser <- get_parser "search" stock ;;
   let summary_table := xpath E parser table_xpath in
   if (List.length summary_table =? 0)%nat
   then Raise (ValueError ("Site did find any entries for " ++ repr (isprintable E) stock))
   else
     let skip_first_element := 0%Z in
     (* [results = []] binds the local name to a new list; the object the
        parameter stood for is not written *)
     let results := @nil string in
     lift (search_lxml_rows skip_first_element limit df summary_table))%prog.

End Legacy.

(* ================================================================= *)
(** * The public functions as one interface *)

Inductive call : Type :=
| Call_get_fundamentals (stock output : string)
| Call_get_estimates (stock output : string)
| Call_get_price (stock exchange output : string)
| Call_search_stock (stock : string) (limit : Z)
| Call_check_site_availability (url : string)
| Call_get_parser (function stock_name : string)
| Call_get_estimates_lxml (stock : string) (results : loc)
| Call_get_fundamentals_lxml (stock : string) (results : loc)
| Call_get_current_value_lxml (stock exchange : string) (results : loc)
| Call_search_stock_lxml (stock : string) (limit : Z) (results : loc).

Inductive value (E : env) : Type :=
| VFundamentals (v : fundamentals_out)
| VEstimates (v : estimates_out)
| VPrice (v : price_out (datetime E))
| VSearch (v : list search_row)
| VNone
| VElement (v : element E)
| VFrame (v : frame E).
Arguments VFundamentals {E} v.
Arguments VEstimates {E} v.
Arguments VPrice {E} v.
Arguments VSearch {E} v.
Arguments VNone {E}.
Arguments VElement {E} v.
Arguments VFrame {E} v.

Definition exec (E : env) (c : call) : prog (value E) :=
  match c with
  | Call_get_fundamentals stock output =>
      (v <- get_fundamentals E stock output ;; Ret (VFundamentals v))%prog
  | Call_get_estimates stock output =>
      (v <- get_estimates E stock output ;; Ret (VEstimates v))%prog
  | Call_get_price stock exchange output =>
      (v <- get_price E stock exchange output ;; Ret (VPrice v))%prog
  | Call_search_stock stock limit =>
      (v <- search_stock E stock limit ;; Ret (VSearch v))%prog
  | Call_check_site_availability url =>
      (_ <- check_site_availability url ;; Ret VNone)%prog
  | Call_get_parser function stock_name =>
      (v <- get_parser E function stock_name ;; Ret (VElement v))%prog
  | Call_get_estimates_lxml stock results =>
      (v <- get_estimates_lxml E stock results ;; Ret (VFrame v))%prog
  | Call_get_fundamentals_lxml stock results =>
      (v <- get_fundamentals_lxml E stock results ;; Ret (VFrame v))%prog
  | Call_get_current_value_lxml stock exchange results =>
      (v <- get_current_value_lxml E stock exchange results ;;
       Ret (VFrame v))%prog
  | Call_search_stock_lxml stock limit results =>
      (v <- search_stock_lxml E stock limit results ;; Ret (VSearch v))%prog
  end.

(* ================================================================= *)
(** * Numbers in the German notation

    The reference against which the normalization of the cells is checked:
    a number written with "." between groups of three digits and "," before
    the decimals, and the value it stands for. *)

Module German.

Record number : Type := {
  negative : bool;
  head : list N;               (* the digits before the first "." *)
  groups : list (list N);      (* the groups of three digits *)
  decimals : list N            (* the digits after the ",", if any *)
}.

Definition digit_char (d : N) : ascii := ascii_of_N (48 + d).

Fixpoint digits_str (ds : list N) : string :=
  match ds with
  | [] => EmptyString
  | d :: ds' => String (digit_char d) (digits_str ds')
  end.

Definition is_digits (ds : list N) : bool := forallb (fun d => d <? 10)%N ds.

Definition well_formed (g : number) : bool :=
  negb (Nat.eqb (List.length (head g)) 0)
  && is_digits (head g)
  && forallb (fun grp => Nat.eqb (List.length grp) 3 && is_digits grp) (groups g)
  && is_digits (decimals g).

(** The text of the number, as the site prints it. *)
Definition render (g : number) : string :=
  (if negative g then "-" else EmptyString)
  ++ digits_str (head g)
  ++ String.concat EmptyString
       (List.map (fun grp => "." ++ digits_str grp) (groups g))
  ++ match decimals g with
     | [] => EmptyString
     | ds => "," ++ digits_str ds
     end.

Definition digits_val (ds : list N) : N :=
  fold_left (fun a d => a * 10 + d)%N ds 0%N.

(** Each group counts for a thousand times what is to its left. *)
Definition integer_part (g : number) : N :=
  fold_left (fun a grp => a * 1000 + digits_val grp)%N (groups g)
    (digits_val (head g)).

(** The value: integer_part + decimals / 10^(number of decimals), as a
    decimal with that many places. *)
Definition value (g : number) : pyfloat :=
  let k := List.length (decimals g) in
  Finite (negative g)
         (integer_part g * 10 ^ N.of_nat k + digits_val (decimals g))%N
         (- Z.of_nat k)%Z.

End German.

(* ================================================================= *)
(** * A small site to run the functions on *)

Module Sample.

Definition text_tag (name s : string) : node :=
  Tag name [] [] [NavigableString s].

(** A box of the fundamentals page: the heading, and a table whose rows
    start with a check box and a label. *)
Definition box (level heading : string) (years : list string)
    (rows : list (string * list string)) : node :=
  Tag "div" ["box"; "table-quotes"] []
    [text_tag level heading;
     Tag "table" [] []
       (Tag "tr" [] []
          (Tag "th" [] [] [] :: Tag "th" [] [] []
           :: List.map (text_tag "th") years)
        :: List.map
             (fun r =>
                Tag "tr" [] []
                  (Tag "td" [] [] []
                   :: Tag "td" ["font-bold"] [] [NavigableString (fst r)]
                   :: List.map (text_tag "td") (snd r)))
             rows)].

Definition document (body : list node) : node := Tag "[document]" [] [] body.

(** A fundamentals page that has the income statement only. *)
Definition guv_page : node :=
  document
    [box "h2" "GuV (in Mio. EUR)" ["2020"; "2021"]
       [("Umsatzerlöse", ["1.000"; "1.200"])]].

(** A fundamentals page with the five sections. *)
Definition full_page : node :=
  document
    [box "h2" "Die Aktie" ["2020"; "2021"] [("Ergebnis je Aktie", ["5,73"; "-"])];
     box "h2" "Unternehmenskennzahlen" ["2020"; "2021"] [("Umsatz je Aktie", ["150,38"; "< 0 *"])];
     box "h2" "GuV (in Mio. EUR)" ["2020"; "2021"] [("Umsatzerlöse", ["1.000"; "1.200"])];
     box "h2" "Bilanz (in Mio. EUR)" ["2020"; "2021"] [("Bilanzsumme", ["216.658,00"; "229.527,00"])];
     box "h2" "sonstige Angaben" ["2020"; "2021"] [("Dividende je Aktie", ["1,90"; "5,80"])]].

(** An estimates page: the rows start with the label. *)
Definition estimates_page : node :=
  document
    [Tag "div" ["box"; "table-quotes"] []
       [text_tag "h1" "Schätzungen zur BMW Aktie";
        Tag "table" [] []
          [Tag "tr" [] [] [Tag "th" [] [] []; text_tag "th" "2022e"; text_tag "th" "2023e"];
           Tag "tr" [] []
             [text_tag "td" "Dividende"; text_tag "td" "5,80 EUR"; text_tag "td" "-"]]]].

Definition price_page : node :=
  document
    [Tag "div" ["snapshot__values"] []
       [Tag "span" ["snapshot__value-current"] [] [NavigableString "95,32EUR"]];
     Tag "div" ["snapshot__time"] []
       [Tag "time" [] [("datetime", "2021-03-05 17:35:12")] []]].

(** A search page: a header row, then rows of category, name, identifier,
    ISIN and WKN. *)
Definition search_page : node :=
  document
    [Tag "table" [] []
       [Tag "tr" [] [] [text_tag "th" "Typ"];
        Tag "tr" [] []
          [text_tag "td" "stock"; text_tag "td" "BMW"; text_tag "td" "bmw";
           text_tag "td" "DE0005190003"; text_tag "td" "519000"];
        Tag "tr" [] []
          [text_tag "td" "index"; text_tag "td" "DAX"; text_tag "td" "dax";
           text_tag "td" "DE0008469008"; text_tag "td" "846900"];
        Tag "tr" [] []
          [text_tag "td" "stock"; text_tag "td" "BMW Vz."; text_tag "td" "bmw_vz";
           text_tag "td" "DE0005190037"; text_tag "td" "519003"]]].

(** The site answers every request with the URL asked for, and the parser
    tells the page by it. *)
Definition site : web := fun _ url => Some url.

Definition parse (src : string) : node :=
  if prefix "https://www.finanzen.net/bilanz_guv/bmw" src then full_page
  else if prefix "https://www.finanzen.net/bilanz_guv/" src then guv_page
  else if prefix "https://www.finanzen.net/schaetzungen/" src then estimates_page
  else if prefix "https://www.finanzen.net/aktien/" src then price_page
  else search_page.

(** A stand-in for [parse_price]: the number, then a currency code of three
    letters. *)
Definition price_of (s : string) : option (pyfloat * string) :=
  let n := (String.length s - 3)%nat in
  match Num.float (Str.re_sub_char "," "." (Str.take n s)) with
  | Ok v => Some (v, Str.drop n s)
  | Err _ => None
  end.

Definition matches_of (soup : node)
  : list (string * (string * string * string * string)) :=
  flat_map
    (fun tr =>
       match List.map Soup.get_text (Soup.find_all "td" tr) with
       | [category; name; id; isin; wkn] => [(category, (name, id, isin, wkn))]
       | _ => []
       end)
    (Soup.find_all "tr" soup).

(** A stand-in for an lxml tree: the rows of the search page. *)
Inductive tree : Type :=
| Doc (rows : list tree)
| Row (name link : string) (tds : list tree)
| Td (text : string).

Definition tree_xpath (e : tree) (q : string) : list tree :=
  match e with
  | Doc rows => if q =? table_xpath then rows else []
  | Row _ _ tds => if q =? ".//td" then tds else []
  | Td _ => []
  end.

Definition tree_xpath_text (e : tree) (q : string) : list string :=
  match e with
  | Doc _ => []
  | Row name link _ =>
      if q =? ".//a/text()" then [name]
      else if q =? ".//a//@href" then [link]
      else []
  | Td text => if q =? "./text()" then [text] else []
  end.

Definition search_tree : tree :=
  Doc [Row EmptyString EmptyString [];
       Row " BMW " "/aktien/bmw-aktie"
         [Td "BMW"; Td "DE0005190003"; Td "519000"];
       Row "BMW Vz." "/aktien/bmw_vz-aktie"
         [Td "BMW Vz."; Td "DE0005190037"; Td "519003"]].

(** The number 1.234,56. *)
Definition n1234_56 : German.number :=
  {| German.negative := false;
     German.head := [1%N];
     German.groups := [[2%N; 3%N; 4%N]];
     German.decimals := [5%N; 6%N] |}.

(** The printable code points up to U+00FF; the sample has no character
    above. *)
Definition printable (cp : N) : bool :=
  ((32 <=? cp) && (cp <? 127) || (160 <? cp) && negb (cp =? 173))%N.

Definition E : env :=
  {| exchanges := ["FSE"; "TGT"];
     StockMarkets := [("TGT", ("@stBoerse_TGT", "Tradegate"))];
     check_data := fun _ => true;
     parse_price := price_of;
     datetime := string;
     parse_timestamp := fun s => Some s;
     BeautifulSoup := parse;
     element := tree;
     fromstring := fun _ => Some search_tree;
     xpath := tree_xpath;
     xpath_text := tree_xpath_text;
     iter_children := fun _ => [];
     frame := list (list cell);
     frame_of_table := fun t => Some (skipn 1 t);
     frame_of_rows := fun _ rows => Some rows;
     concat_frames := fun l => Some (List.concat l);
     search_matches := matches_of;
     isprintable := printable |}.

End Sample.

(* ================================================================= *)
(** * Notions used in the proofs *)

(** The digits of a number in a row, and its text with a decimal point. *)
Definition all_digits (g : German.number) : list N :=
  (German.head g ++ List.concat (German.groups g))%list.

Definition unsigned_plain (g : German.number) : string :=
  German.digits_str (all_digits g)
  ++ match German.decimals g with
     | [] => EmptyString
     | ds => "." ++ German.digits_str ds
     end.

Definition plain (g : German.number) : string :=
  (if German.negative g then "-" else EmptyString) ++ unsigned_plain g.

(** A text at which the reading of a [digitpart] ends. *)
Definition stops (rest : string) : bool :=
  match rest with
  | EmptyString => true
  | String c _ => negb (Str.is_digit c) && negb (Ascii.eqb c "_")
  end.

Definition step (a d : N) : N := (a * 10 + d)%N.

Fixpoint no_space (s : string) : bool :=
  match s with
  | EmptyString => true
  | String c s' => negb (Str.is_space c) && no_space s'
  end.

(** A program that neither reads nor writes a list object. *)
Inductive stateless {A : Type} : prog A -> Prop :=
| stateless_Ret a : stateless (Ret a)
| stateless_Raise e : stateless (Raise e)
| stateless_HttpGet url k :
    (forall r, stateless (k r)) -> stateless (HttpGet url k)
| stateless_Warn msg k : stateless k -> stateless (Warn msg k).

(** The five categories as [get_fundamentals] fills them from a page. *)
Definition sections (soup : node) : Dict.t string (option table_dict) :=
  [("Quotes", try_or_none (_parse_table soup "Die Aktie"));
   ("Key Ratios", try_or_none (_parse_table soup "Unternehmenskennzahlen"));
   ("Income Statement", try_or_none (_parse_table soup "GuV"));
   ("Balance Sheet", try_or_none (_parse_table soup "Bilanz"));
   ("Other", try_or_none (_parse_table soup "sonstige Angaben"))].

(** The Exchange column of a price, in either shape of the output. *)
Definition exchange_is {D} (x : string) (v : price_out D) : Prop :=
  match v with
  | PriceDict r => Exchange r = x
  | PriceFrame rows => exists r, rows = [r] /\ Exchange r = x
  end.

(** The URL that [get_parser] builds for a search. *)
Definition search_url (stock : string) : string :=
  base_url ++ "/suchergebnis.asp?_search=" ++ stock.

(** The matches of the category "stock" on a search page. *)
Definition stock_hits (E : env) (soup : node) : list search_row :=
  List.map snd (filter (fun h => fst h =? "stock") (search_matches E soup)).

(* ================================================================= *)
(** * Further notions *)

(** A number without its sign. *)
Definition unsigned (g : German.number) : German.number :=
  {| German.negative := false;
     German.head := German.head g;
     German.groups := German.groups g;
     German.decimals := German.decimals g |}.

(** A text without a digit and without a comma. *)
Definition no_digit_or_comma (s : string) : bool :=
  Str.re_sub_delete_outside is_digit_or_comma s =? EmptyString.

(** The sample site with a search page that has no rows. *)
Definition empty_search_env : env :=
  {| exchanges := exchanges Sample.E;
     StockMarkets := StockMarkets Sample.E;
     check_data := check_data Sample.E;
     parse_price := parse_price Sample.E;
     datetime := datetime Sample.E;
     parse_timestamp := parse_timestamp Sample.E;
     BeautifulSoup := BeautifulSoup Sample.E;
     element := Sample.tree;
     fromstring := fun _ => Some (Sample.Doc []);
     xpath := Sample.tree_xpath;
     xpath_text := Sample.tree_xpath_text;
     iter_children := fun _ => [];
     frame := list (list cell);
     frame_of_table := fun t => Some (skipn 1 t);
     frame_of_rows := fun _ rows => Some rows;
     concat_frames := fun l => Some (List.concat l);
     search_matches := search_matches Sample.E;
     isprintable := isprintable Sample.E |}.

(** The page that [get_fundamentals_lxml] reads, and the requests of a
    call that goes through: for each of the five tables the home page, then
    the page. *)
Definition fundamentals_lxml_url (stock : string) : string :=
  base_url ++ "/bilanz_guv/" ++ stock.

Definition fundamentals_lxml_requests (stock : string) : list string :=
  flat_map (fun _ => [base_url; fundamentals_lxml_url stock]) fundamentals_tables.

(** The frame that [pd.DataFrame([result])] makes of a price. *)
Definition price_frame {D} (v : price_out D) : price_out D :=
  match v with
  | PriceDict r => PriceFrame [r]
  | PriceFrame rows => PriceFrame rows
  end.

(** The frames of the metrics of tables that were all parsed, and the
    categories with such tables as a dictionary. *)
Definition metric_frames (tables : list (string * table_dict))
  : list (list fundamentals_row) :=
  flat_map
    (fun ct : string * table_dict =>
       List.map (fun iv : string * year_values =>
                   List.map (fun yv : Z * option pyfloat =>
                               (fst ct, fst iv, fst yv, snd yv))
                            (snd iv))
                (snd ct))
    tables.

Definition all_parsed (tables : list (string * table_dict))
  : Dict.t string (option table_dict) :=
  List.map (fun ct : string * table_dict => (fst ct, Some (snd ct))) tables.

(** The tables of the sample page with the five sections. *)
Definition full_page_tables : list (string * table_dict) :=
  List.map (fun kv : string * option table_dict =>
              (fst kv, match snd kv with Some t => t | None => [] end))
           (sections Sample.full_page).
(** What the rows of a table keep true. *)
Definition table_ok (years : list Z) (d : table_dict) : Prop :=
  NoDup (Dict.keys d)
  /\ forall name yv, In (name, yv) d ->
       NoDup (Dict.keys yv) /\ incl (Dict.keys yv) years.

(** The sample site with a [check_data] that accepts no page. *)
Definition rejecting_env : env :=
  {| exchanges := exchanges Sample.E;
     StockMarkets := StockMarkets Sample.E;
     check_data := fun _ => false;
     parse_price := parse_price Sample.E;
     datetime := datetime Sample.E;
     parse_timestamp := parse_timestamp Sample.E;
     BeautifulSoup := BeautifulSoup Sample.E;
     element := element Sample.E;
     fromstring := fromstring Sample.E;
     xpath := xpath Sample.E;
     xpath_text := xpath_text Sample.E;
     iter_children := iter_children Sample.E;
     frame := frame Sample.E;
     frame_of_table := frame_of_table Sample.E;
     frame_of_rows := frame_of_rows Sample.E;
     concat_frames := concat_frames Sample.E;
     search_matches := search_matches Sample.E;
     isprintable := isprintable Sample.E |}.

(** A site that does not answer, and one that answers every request with
    the page of a price, which has no heading. *)
Definition offline : web := fun _ _ => None.
Definition price_pages : web := fun _ _ => Some "https://www.finanzen.net/aktien/".

(** The URLs of the three retrieval functions. *)
Definition fundamentals_url (stock : string) : string :=
  "https://www.finanzen.net/bilanz_guv/" ++ strip_aktie stock.
Definition estimates_url (stock : string) : string :=
  "https://www.finanzen.net/schaetzungen/" ++ strip_aktie stock.
Definition price_url (stock exchange : string) : string :=
  "https://www.finanzen.net/aktien/" ++ Str.lower stock
  ++ "@stBoerse_" ++ Str.upper exchange.

(** The rows that [get_estimates_lxml] asks the tree for, and its warning. *)
Definition estimates_xp_data : string :=
  "//div[contains(@class, " ++ dq ++ "box table-quotes" ++ dq
  ++ ")]//h1[contains(text(), " ++ dq ++ "Schätzungen" ++ dq ++ ")]//.."
  ++ "//table//tr".
Definition estimates_lxml_warning : string :=
  "get_estimates_lxml() functionality now included in get_estimates().".
Definition current_value_lxml_warning : string :=
  "get_current_value_lxml() functionality now included in get_price().".

(** A text that is empty or begins with a blank. *)
Definition blank_or_empty (s : string) : bool :=
  match s with
  | EmptyString => true
  | String c _ => Ascii.eqb c " "
  end.

(** A fundamentals page whose income statement has a cell that is no
    number. *)
Definition unreadable_page : node :=
  Sample.document
    [Sample.box "h2" "GuV (in Mio. EUR)" ["2020"; "2021"]
       [("Umsatzerlöse", ["1.000"; "1.200"]);
        ("Ergebnis", ["n/a"; "12"])]].

(** A program that gives no warning and leaves the list objects alone. *)
Inductive silent {A : Type} : prog A -> Prop :=
| silent_Ret a : silent (Ret a)
| silent_Raise e : silent (Raise e)
| silent_HttpGet url k : (forall r, silent (k r)) -> silent (HttpGet url k).

Definition fundamentals_lxml_warning : string :=
  "get_fundamentals_lxml() functionality now included in get_fundamentals().".

(** The warning that a call hands to [warnings.warn], if it does. *)
Definition warning_of (c : call) : option string :=
  match c with
  | Call_get_estimates_lxml _ _ => Some estimates_lxml_warning
  | Call_get_fundamentals_lxml _ _ => Some fundamentals_lxml_warning
  | Call_get_current_value_lxml _ _ _ => Some current_value_lxml_warning
  | _ => None
  end.

(* ================================================================= *)
(** * Properties *)

Unset Implicit Arguments.

(** ** Strings *)

Lemma append_assoc' (a b c : string) : (a ++ b) ++ c = a ++ b ++ c.
Proof. induction a as [|x a IH]; simpl; [reflexivity | now rewrite IH]. Qed.

Lemma append_empty_r (a : string) : a ++ EmptyString = a.
Proof. induction a as [|x a IH]; simpl; [reflexivity | now rewrite IH]. Qed.

Lemma re_sub_char_app c repl a b :
  Str.re_sub_char c repl (a ++ b)
  = Str.re_sub_char c repl a ++ Str.re_sub_char c repl b.
Proof.
  induction a as [|x a IH]; simpl; [reflexivity|].
  destruct (Ascii.eqb x c); simpl; rewrite IH; [now rewrite append_assoc' | reflexivity].
Qed.

(** The ten digit characters. *)
Lemma digit_char_cases d :
  (d <? 10)%N = true ->
  In (German.digit_char d) ["0"; "1"; "2"; "3"; "4"; "5"; "6"; "7"; "8"; "9"]%char.
Proof.
  intros H. apply N.ltb_lt in H.
  assert (C : (d = 0 \/ d = 1 \/ d = 2 \/ d = 3 \/ d = 4 \/ d = 5 \/ d = 6
               \/ d = 7 \/ d = 8 \/ d = 9)%N) by lia.
  repeat (destruct C as [C|C]; [subst d; simpl; tauto|]).
  subst d; simpl; tauto.
Qed.

Ltac digit_cases d H :=
  let C := fresh "C" in
  pose proof (digit_char_cases d H) as C; simpl in C;
  repeat (destruct C as [C|C]; [try rewrite <- C; try reflexivity|]);
  try contradiction.

Lemma digit_char_is_digit d :
  (d <? 10)%N = true -> Str.is_digit (German.digit_char d) = true.
Proof. intros H. digit_cases d H. Qed.

Lemma digit_char_val d :
  (d <? 10)%N = true -> Num.digit_val (German.digit_char d) = d.
Proof.
  intros H. apply N.ltb_lt in H.
  assert (C : (d = 0 \/ d = 1 \/ d = 2 \/ d = 3 \/ d = 4 \/ d = 5 \/ d = 6
               \/ d = 7 \/ d = 8 \/ d = 9)%N) by lia.
  repeat (destruct C as [C|C]; [subst d; reflexivity|]).
  subst d; reflexivity.
Qed.

Lemma digit_char_not c d :
  (d <? 10)%N = true -> Str.is_digit c = false ->
  Ascii.eqb (German.digit_char d) c = false.
Proof.
  intros H Hc. apply digit_char_is_digit in H.
  destruct (Ascii.eqb_spec (German.digit_char d) c); [congruence | reflexivity].
Qed.

Lemma re_sub_char_digits c repl ds :
  Str.is_digit c = false -> German.is_digits ds = true ->
  Str.re_sub_char c repl (German.digits_str ds) = German.digits_str ds.
Proof.
  intros Hc. induction ds as [|d ds IH]; simpl; [reflexivity|].
  intros H. apply andb_true_iff in H as [Hd Hds].
  rewrite (digit_char_not _ _ Hd Hc), IH by assumption. reflexivity.
Qed.

Lemma digits_str_app a b :
  German.digits_str (a ++ b)%list = German.digits_str a ++ German.digits_str b.
Proof. induction a as [|x a IH]; simpl; [reflexivity | now rewrite IH]. Qed.

Lemma is_digits_app a b :
  German.is_digits (a ++ b)%list = German.is_digits a && German.is_digits b.
Proof. apply forallb_app. Qed.

Lemma concat_empty_cons x l :
  String.concat EmptyString (x :: l) = x ++ String.concat EmptyString l.
Proof. destruct l; simpl; [now rewrite append_empty_r | reflexivity]. Qed.

Lemma groups_is_digits gs :
  forallb (fun grp => Nat.eqb (List.length grp) 3 && German.is_digits grp) gs = true ->
  German.is_digits (List.concat gs) = true.
Proof.
  induction gs as [|g gs IH]; simpl; [reflexivity|].
  intros H. apply andb_true_iff in H as [Hg Hgs].
  apply andb_true_iff in Hg as [_ Hg].
  rewrite is_digits_app, Hg. now apply IH.
Qed.

(** Deleting the points of the groups leaves their digits. *)
Lemma groups_without_points gs :
  forallb (fun grp => Nat.eqb (List.length grp) 3 && German.is_digits grp) gs = true ->
  Str.re_sub_char "." EmptyString
    (String.concat EmptyString (List.map (fun grp => "." ++ German.digits_str grp) gs))
  = German.digits_str (List.concat gs).
Proof.
  induction gs as [|g gs IH]; [reflexivity|].
  intros H. simpl in H. apply andb_true_iff in H as [Hg Hgs].
  apply andb_true_iff in Hg as [_ Hg].
  cbn [List.map List.concat]. rewrite concat_empty_cons, re_sub_char_app, IH by assumption.
  rewrite digits_str_app. f_equal.
  cbn. now apply re_sub_char_digits.
Qed.


Lemma well_formed_parts g :
  German.well_formed g = true ->
  German.head g <> [] /\ German.is_digits (German.head g) = true
  /\ forallb (fun grp => Nat.eqb (List.length grp) 3 && German.is_digits grp)
       (German.groups g) = true
  /\ German.is_digits (German.decimals g) = true.
Proof.
  unfold German.well_formed. intros H.
  repeat (apply andb_true_iff in H as [H ?]).
  repeat split; try assumption.
  intros E. rewrite E in H. discriminate.
Qed.

(** Lines 58 and 59 turn the German text into the plain decimal. *)
Lemma normalized_text g :
  German.well_formed g = true ->
  Str.re_sub_char "," "." (Str.re_sub_char "." EmptyString (German.render g))
  = plain g.
Proof.
  intros H. destruct (well_formed_parts g H) as (_ & Hh & Hg & Hd).
  unfold German.render, plain, unsigned_plain, all_digits.
  rewrite !re_sub_char_app, groups_without_points by assumption.
  rewrite (re_sub_char_digits "." _ (German.head g)) by (reflexivity || assumption).
  rewrite (re_sub_char_digits "," _ (German.head g)) by (reflexivity || assumption).
  rewrite (re_sub_char_digits "," _ (List.concat _))
    by (reflexivity || now apply groups_is_digits).
  rewrite digits_str_app, append_assoc'.
  f_equal; [now destruct (German.negative g)|]. f_equal. f_equal.
  destruct (German.decimals g) as [|d ds]; [reflexivity|].
  rewrite !re_sub_char_app.
  rewrite (re_sub_char_digits "." _ (d :: ds)) by (reflexivity || assumption).
  rewrite (re_sub_char_digits "," _ (d :: ds)) by (reflexivity || assumption).
  reflexivity.
Qed.

(** ** Reading digits *)



Lemma digits_tail_stops acc n rest :
  stops rest = true -> Num.digits_tail acc n rest = (acc, n, rest).
Proof.
  destruct rest as [|c r]; simpl; [reflexivity|].
  intros H. apply andb_true_iff in H as [H1 H2].
  apply negb_true_iff in H1, H2. now rewrite H1, H2.
Qed.

Lemma digits_tail_digits ds : forall acc n rest,
  German.is_digits ds = true -> stops rest = true ->
  Num.digits_tail acc n (German.digits_str ds ++ rest)
  = (fold_left step ds acc, (n + List.length ds)%nat, rest).
Proof.
  induction ds as [|d ds IH]; intros acc n rest Hd Hr.
  - simpl. rewrite Nat.add_0_r. now apply digits_tail_stops.
  - simpl in Hd. apply andb_true_iff in Hd as [Hd Hds].
    cbn [German.digits_str String.append Num.digits_tail].
    rewrite (digit_char_is_digit d Hd), (digit_char_val d Hd).
    rewrite IH by assumption. cbn [fold_left List.length].
    f_equal. f_equal. lia.
Qed.

Lemma fold_step ds : forall acc,
  fold_left step ds acc
  = (acc * 10 ^ N.of_nat (List.length ds) + German.digits_val ds)%N.
Proof.
  unfold German.digits_val. fold step.
  induction ds as [|d ds IH]; intros acc.
  - simpl. lia.
  - cbn [fold_left List.length]. rewrite IH, (IH (step 0 d)).
    rewrite Nat2N.inj_succ, N.pow_succ_r'. unfold step. lia.
Qed.

Lemma digitpart_digits ds rest :
  ds <> [] -> German.is_digits ds = true -> stops rest = true ->
  Num.digitpart (German.digits_str ds ++ rest)
  = Some (German.digits_val ds, List.length ds, rest).
Proof.
  destruct ds as [|d ds]; [congruence|]. intros _ Hd Hr.
  simpl in Hd. apply andb_true_iff in Hd as [Hd Hds].
  cbn [German.digits_str String.append Num.digitpart].
  rewrite (digit_char_is_digit d Hd), (digit_char_val d Hd).
  rewrite digits_tail_digits by assumption.
  unfold German.digits_val. fold step. reflexivity.
Qed.

(** The groups of three digits read as thousands. *)
Lemma integer_part_digits gs : forall hd,
  forallb (fun grp => Nat.eqb (List.length grp) 3 && German.is_digits grp) gs = true ->
  German.digits_val (hd ++ List.concat gs)%list
  = fold_left (fun a grp => a * 1000 + German.digits_val grp)%N gs
      (German.digits_val hd).
Proof.
  induction gs as [|g gs IH]; intros hd H.
  - simpl. now rewrite app_nil_r.
  - simpl in H. apply andb_true_iff in H as [Hg Hgs].
    apply andb_true_iff in Hg as [Hl _]. apply Nat.eqb_eq in Hl.
    cbn [List.concat fold_left]. rewrite app_assoc, IH by assumption.
    f_equal. unfold German.digits_val at 1. fold step.
    rewrite fold_left_app. fold (German.digits_val hd).
    fold step. rewrite fold_step, Hl. reflexivity.
Qed.

(** ** White space *)


Lemma strip_no_space s : no_space s = true -> Str.strip s = s.
Proof.
  unfold Str.strip. intros H.
  assert (L : Str.lstrip s = s).
  { destruct s as [|c s]; [reflexivity|]. simpl in *.
    apply andb_true_iff in H as [H _]. apply negb_true_iff in H. now rewrite H. }
  rewrite L. clear L. induction s as [|c s IH]; [reflexivity|].
  simpl in *. apply andb_true_iff in H as [Hc Hs]. apply negb_true_iff in Hc.
  rewrite IH by assumption. destruct s; [now rewrite Hc | reflexivity].
Qed.

Lemma no_space_app a b : no_space (a ++ b) = no_space a && no_space b.
Proof.
  induction a as [|c a IH]; simpl; [reflexivity|].
  now rewrite IH, andb_assoc.
Qed.

Lemma no_space_digits ds :
  German.is_digits ds = true -> no_space (German.digits_str ds) = true.
Proof.
  induction ds as [|d ds IH]; simpl; [reflexivity|].
  intros H. apply andb_true_iff in H as [Hd Hds]. rewrite IH by assumption.
  rewrite andb_true_r. digit_cases d Hd.
Qed.


Lemma unsigned_plain_head g :
  German.well_formed g = true ->
  exists d r, (d <? 10)%N = true /\ unsigned_plain g = String (German.digit_char d) r.
Proof.
  intros H. destruct (well_formed_parts g H) as (Hn & Hh & _).
  unfold unsigned_plain, all_digits.
  destruct (German.head g) as [|d hd]; [congruence|].
  simpl in Hh. apply andb_true_iff in Hh as [Hd _].
  exists d. eexists. split; [assumption|]. cbn. reflexivity.
Qed.

Lemma all_digits_ok g :
  German.well_formed g = true ->
  all_digits g <> [] /\ German.is_digits (all_digits g) = true.
Proof.
  intros H. destruct (well_formed_parts g H) as (Hn & Hh & Hg & _).
  unfold all_digits. split.
  - destruct (German.head g); [congruence | discriminate].
  - rewrite is_digits_app, Hh. now apply groups_is_digits.
Qed.

Lemma number_unsigned_plain g :
  German.well_formed g = true ->
  Num.number (unsigned_plain g)
  = Some ((German.integer_part g
           * 10 ^ N.of_nat (List.length (German.decimals g))
           + German.digits_val (German.decimals g))%N,
          List.length (German.decimals g), EmptyString).
Proof.
  intros H. destruct (all_digits_ok g H) as [Hn Ha].
  destruct (well_formed_parts g H) as (_ & _ & Hg & Hd).
  assert (I : German.digits_val (all_digits g) = German.integer_part g)
    by (now apply integer_part_digits).
  unfold unsigned_plain, Num.number.
  destruct (German.decimals g) as [|d ds] eqn:Ed.
  - rewrite digitpart_digits by (assumption || reflexivity).
    rewrite I. cbn. f_equal. f_equal. f_equal. lia.
  - rewrite digitpart_digits by (assumption || reflexivity).
    change ("." ++ German.digits_str (d :: ds))
      with (String "." (German.digits_str (d :: ds))).
    cbv iota beta.
    rewrite <- (append_empty_r (German.digits_str (d :: ds))).
    rewrite digitpart_digits by (assumption || reflexivity || discriminate).
    now rewrite I.
Qed.

Lemma no_space_plain g :
  German.well_formed g = true -> no_space (plain g) = true.
Proof.
  intros H. destruct (all_digits_ok g H) as [_ Ha].
  destruct (well_formed_parts g H) as (_ & _ & _ & Hd).
  unfold plain, unsigned_plain. rewrite !no_space_app, (no_space_digits _ Ha).
  destruct (German.negative g); destruct (German.decimals g) as [|d ds] eqn:Ed;
    try reflexivity;
    cbn [no_space String.append]; rewrite (no_space_digits _ Hd); reflexivity.
Qed.

Lemma sign_plain g :
  German.well_formed g = true ->
  Num.sign (plain g) = (German.negative g, unsigned_plain g).
Proof.
  intros H. destruct (unsigned_plain_head g H) as (d & r & Hd & Hu).
  unfold plain. rewrite Hu.
  destruct (German.negative g); [reflexivity|].
  cbn [String.append]. digit_cases d Hd.
Qed.

Lemma not_a_word g :
  German.well_formed g = true ->
  let w := Str.lower (unsigned_plain g) in
  (w =? "inf") || (w =? "infinity") = false /\ (w =? "nan") = false.
Proof.
  intros H. destruct (unsigned_plain_head g H) as (d & r & Hd & Hu).
  rewrite Hu. cbn zeta. unfold Str.lower. cbn [Str.map].
  split; digit_cases d Hd.
Qed.

Lemma float_plain_text g :
  German.well_formed g = true -> Num.float (plain g) = Ok (German.value g).
Proof.
  intros H. unfold Num.float.
  rewrite (strip_no_space _ (no_space_plain g H)), (sign_plain g H).
  destruct (not_a_word g H) as [W1 W2]. cbv zeta in W1, W2.
  rewrite W1, W2, (number_unsigned_plain g H).
  unfold German.value. cbn. f_equal.
Qed.

Lemma plain_not_token g :
  German.well_formed g = true -> Str.mem (plain g) ["-"; "< 0 *"] = false.
Proof.
  intros H. destruct (unsigned_plain_head g H) as (d & r & Hd & Hu).
  unfold plain. rewrite Hu.
  destruct (German.negative g); [reflexivity|].
  cbn [String.append]. digit_cases d Hd.
Qed.

(** Claim C1.  A number written with "." between its groups of three
    digits and "," before its decimals is normalized by the fundamentals
    table (points deleted, the comma made a point, [float]) to the value it
    stands for; "1.234,56" gives 1234.56. *)
Theorem german_number_normalized (g : German.number) :
  German.well_formed g = true ->
  fundamentals_cell (German.render g) = Ok (Some (German.value g)).
Proof.
  intros H. unfold fundamentals_cell.
  rewrite (normalized_text g H), (plain_not_token g H), (float_plain_text g H).
  reflexivity.
Qed.

Lemma german_number_normalized_witness :
  German.well_formed Sample.n1234_56 = true
  /\ fundamentals_cell "1.234,56" = Ok (Some (Finite false 123456 (-2))).
Proof.
  split; [reflexivity|].
  exact (german_number_normalized Sample.n1234_56 eq_refl).
Defined.

(** ** The tokens for an absent value *)

(** Claim C2, as amended.  A cell that is exactly "-" or exactly "< 0 *"
    is [None] in the fundamentals table, and a cell that is exactly "-" is
    [None] in an estimates row: neither a number nor an exception. *)
Theorem absent_tokens (x : string) :
  Str.mem x ["-"; "< 0 *"] = true ->
  fundamentals_cell x = Ok None
  /\ (x = "-" -> estimates_cell x = Ok None).
Proof.
  intros H. unfold Str.mem in H. cbn [existsb] in H.
  rewrite orb_false_r in H. apply orb_true_iff in H as [H|H];
    apply String.eqb_eq in H; subst x.
  - split; reflexivity.
  - split; [reflexivity | discriminate].
Qed.

Lemma absent_tokens_witness :
  Str.mem "-" ["-"; "< 0 *"] = true
  /\ fundamentals_cell "-" = Ok None
  /\ ("-" = "-" -> estimates_cell "-" = Ok None).
Proof. split; [reflexivity|]. exact (absent_tokens "-" eq_refl). Defined.

(** Claim C2 as it was stated fails in the estimates: of "< 0 *" the
    digit and nothing else is kept, and the cell is the number 0.0. *)
Lemma estimates_less_than_zero :
  estimates_cell "< 0 *" = Ok (Some (Finite false 0 0))
  /\ estimates_cell "< 0 *" <> Ok None.
Proof. split; [reflexivity | discriminate]. Qed.

(** ** Suffixes *)

Lemma map_app f a b : Str.map f (a ++ b) = Str.map f a ++ Str.map f b.
Proof. induction a as [|c a IH]; simpl; [reflexivity | now rewrite IH]. Qed.

Lemma length_app a b :
  String.length (a ++ b) = (String.length a + String.length b)%nat.
Proof. induction a as [|c a IH]; simpl; [reflexivity | now rewrite IH]. Qed.

Lemma drop_app a b : Str.drop (String.length a) (a ++ b) = b.
Proof. induction a as [|c a IH]; simpl; [now destruct b | exact IH]. Qed.

Lemma take_app a b : Str.take (String.length a) (a ++ b) = a.
Proof. induction a as [|c a IH]; simpl; [now destruct b | now rewrite IH]. Qed.

Lemma endswith_app a suf : Str.endswith (a ++ suf) suf = true.
Proof.
  unfold Str.endswith. rewrite length_app.
  replace (String.length a + String.length suf - String.length suf)%nat
    with (String.length a) by lia.
  rewrite drop_app, String.eqb_refl, andb_true_r.
  apply Nat.leb_le. lia.
Qed.

Lemma re_sub_at_end_app a suf : re_sub_at_end suf (a ++ suf) = a.
Proof.
  unfold re_sub_at_end. rewrite endswith_app, length_app.
  replace (String.length a + String.length suf - String.length suf)%nat
    with (String.length a) by lia.
  apply take_app.
Qed.

(** Lines 36 to 38: the identifier in lower case, without the suffix. *)
Lemma strip_aktie_suffix stock :
  strip_aktie (stock ++ "-aktie") = Str.lower stock.
Proof.
  unfold strip_aktie, Str.lower. rewrite map_app.
  change (Str.map Str.lower_char "-aktie") with "-aktie".
  now rewrite endswith_app, re_sub_at_end_app.
Qed.

(** ** Running programs *)

Lemma run_from_lift {A} (m : res A) w i st :
  run_from (lift m) w i st = {| result := m; final := st; requests := [] |}.
Proof. now destruct m. Qed.

Lemma run_make_soup {A} E url (k : node -> prog A) w i st :
  run_from (bind (_make_soup E url) k) w i st
  = match w i url with
    | Some src =>
        let o := run_from (k (BeautifulSoup E src)) w (S i) st in
        {| result := result o; final := final o; requests := url :: requests o |}
    | None => {| result := Err RequestException; final := st; requests := [url] |}
    end.
Proof. cbn. now destruct (w i url). Qed.

Lemma requests_get_fundamentals E stock output w st :
  Str.mem output ["dataframe"; "dict"] = true ->
  requests (run (get_fundamentals E stock output) w st)
  = ["https://www.finanzen.net/bilanz_guv/" ++ strip_aktie stock].
Proof.
  intros H. unfold run, get_fundamentals. rewrite H. cbv [negb].
  rewrite run_make_soup. destruct (w 0%nat _) as [src|]; [|reflexivity].
  cbv zeta. cbn [requests]. f_equal.
  destruct (check_data E _); cbn [negb]; [|reflexivity].
  destruct (output =? "dict"); [reflexivity|].
  now rewrite run_from_lift.
Qed.

Lemma requests_get_estimates E stock output w st :
  Str.mem output ["dataframe"; "dict"] = true ->
  requests (run (get_estimates E stock output) w st)
  = ["https://www.finanzen.net/schaetzungen/" ++ strip_aktie stock].
Proof.
  intros H. unfold run, get_estimates. rewrite H. cbv [negb].
  rewrite run_make_soup. destruct (w 0%nat _) as [src|]; [|reflexivity].
  cbv zeta. cbn [requests]. f_equal.
  destruct (check_data E _); cbn [negb]; [|reflexivity].
  destruct (estimates_table _) as [t|e]; [|reflexivity].
  cbn [lift bind].
  destruct (output =? "dict"); [reflexivity|].
  now rewrite run_from_lift.
Qed.

Lemma requests_get_price E stock exchange output w st :
  Str.mem (Str.upper exchange) (exchanges E) = true ->
  Str.mem (Str.lower output) ["dict"; "dataframe"] = true ->
  requests (run (get_price E stock exchange output) w st)
  = ["https://www.finanzen.net/aktien/" ++ Str.lower stock
     ++ "@stBoerse_" ++ Str.upper exchange].
Proof.
  intros Hx Ho. unfold run, get_price. rewrite Hx, Ho. cbv [negb].
  rewrite run_make_soup. destruct (w 0%nat _) as [src|]; [|reflexivity].
  cbv zeta. cbn [requests]. f_equal.
  destruct (check_data E _); cbn [negb]; [|reflexivity].
  destruct (quote E _) as [[[p c] t]|e]; [|reflexivity].
  cbn [lift bind].
  now destruct (Str.lower output =? "dataframe").
Qed.

(** Claim C4, as amended.  For an identifier that ends in "-aktie",
    fundamentals retrieval and estimates retrieval request the URL of the
    identifier in lower case without that suffix; price retrieval requests
    the URL of the identifier in lower case, suffix included. *)
Theorem suffix_stripped E stock output w st :
  Str.mem output ["dataframe"; "dict"] = true ->
  requests (run (get_fundamentals E (stock ++ "-aktie") output) w st)
  = ["https://www.finanzen.net/bilanz_guv/" ++ Str.lower stock]
  /\ requests (run (get_estimates E (stock ++ "-aktie") output) w st)
     = ["https://www.finanzen.net/schaetzungen/" ++ Str.lower stock]
  /\ forall exchange,
       Str.mem (Str.upper exchange) (exchanges E) = true ->
       requests (run (get_price E (stock ++ "-aktie") exchange output) w st)
       = ["https://www.finanzen.net/aktien/" ++ Str.lower stock ++ "-aktie"
          ++ "@stBoerse_" ++ Str.upper exchange].
Proof.
  intros H. split; [|split].
  - now rewrite requests_get_fundamentals, strip_aktie_suffix.
  - now rewrite requests_get_estimates, strip_aktie_suffix.
  - intros exchange Hx.
    assert (Ho : Str.mem (Str.lower output) ["dict"; "dataframe"] = true).
    { cbn in H. cbn.
      destruct (String.eqb_spec output "dataframe") as [->|_]; [reflexivity|].
      destruct (String.eqb_spec output "dict") as [->|_]; [reflexivity|].
      discriminate. }
    rewrite requests_get_price by assumption.
    unfold Str.lower. rewrite map_app.
    change (Str.map Str.lower_char "-aktie") with "-aktie".
    now rewrite append_assoc'.
Qed.

Lemma suffix_stripped_witness :
  Str.mem "dict" ["dataframe"; "dict"] = true
  /\ requests (run (get_fundamentals Sample.E ("BMW" ++ "-aktie") "dict")
                 Sample.site import_state)
     = ["https://www.finanzen.net/bilanz_guv/bmw"]
  /\ requests (run (get_estimates Sample.E ("BMW" ++ "-aktie") "dict")
                 Sample.site import_state)
     = ["https://www.finanzen.net/schaetzungen/bmw"]
  /\ forall exchange,
       Str.mem (Str.upper exchange) (exchanges Sample.E) = true ->
       requests (run (get_price Sample.E ("BMW" ++ "-aktie") exchange "dict")
                   Sample.site import_state)
       = ["https://www.finanzen.net/aktien/" ++ "bmw" ++ "-aktie"
          ++ "@stBoerse_" ++ Str.upper exchange].
Proof.
  split; [reflexivity|].
  exact (suffix_stripped Sample.E "BMW" "dict" Sample.site import_state eq_refl).
Defined.

(** Claim C4 as it was stated fails for the price: the suffix is in the
    URL that is requested. *)
Lemma price_keeps_suffix :
  Str.endswith "bmw-aktie" "-aktie" = true
  /\ requests (run (get_price Sample.E "bmw-aktie" "FSE" "dict")
                 Sample.site import_state)
     = ["https://www.finanzen.net/aktien/bmw-aktie@stBoerse_FSE"].
Proof. split; reflexivity. Qed.

(** ** The checks of the arguments *)

Lemma get_price_invalid_exchange E stock exchange output :
  Str.mem (Str.upper exchange) (exchanges E) = false ->
  get_price E stock exchange output = Raise (exchange_error E).
Proof. intros H. unfold get_price. now rewrite H. Qed.

(** Claim C5.  When the exchange in upper case is not in the allow-list,
    [get_price] raises the ValueError of the exchange, has requested
    nothing and has changed nothing. *)
Theorem invalid_exchange_before_request E stock exchange output w st :
  Str.mem (Str.upper exchange) (exchanges E) = false ->
  run (get_price E stock exchange output) w st
  = {| result := Err (exchange_error E); final := st; requests := [] |}.
Proof. intros H. now rewrite get_price_invalid_exchange. Qed.

Lemma invalid_exchange_before_request_witness :
  Str.mem (Str.upper "nyse") (exchanges Sample.E) = false
  /\ run (get_price Sample.E "bmw-aktie" "nyse" "dict") Sample.site import_state
     = {| result := Err (ValueError "'exchange' must be either one of: FSE, TGT");
          final := import_state;
          requests := [] |}.
Proof.
  split; [reflexivity|].
  exact (invalid_exchange_before_request Sample.E "bmw-aktie" "nyse" "dict"
           Sample.site import_state eq_refl).
Defined.

(** Claim C7, as amended.  With an output format outside "dict" and
    "dataframe", [get_fundamentals] and [get_estimates] are the raising of
    the ValueError and nothing else.  [get_price] puts the format in lower
    case and checks the exchange first: with an exchange of the allow-list
    and a format that in lower case is outside the two, it is the raising
    of its ValueError and nothing else. *)
Theorem invalid_output_raises E stock output :
  Str.mem output ["dataframe"; "dict"] = false ->
  get_fundamentals E stock output = Raise output_error
  /\ get_estimates E stock output = Raise output_error
  /\ forall exchange,
       Str.mem (Str.upper exchange) (exchanges E) = true ->
       Str.mem (Str.lower output) ["dict"; "dataframe"] = false ->
       get_price E stock exchange output = Raise price_output_error.
Proof.
  intros H. split; [|split].
  - unfold get_fundamentals. now rewrite H.
  - unfold get_estimates. now rewrite H.
  - intros exchange Hx Ho. unfold get_price. now rewrite Hx, Ho.
Qed.

Lemma invalid_output_raises_witness :
  Str.mem "xml" ["dataframe"; "dict"] = false
  /\ get_fundamentals Sample.E "bmw" "xml" = Raise output_error
  /\ get_estimates Sample.E "bmw" "xml" = Raise output_error
  /\ forall exchange,
       Str.mem (Str.upper exchange) (exchanges Sample.E) = true ->
       Str.mem (Str.lower "xml") ["dict"; "dataframe"] = false ->
       get_price Sample.E "bmw" exchange "xml" = Raise price_output_error.
Proof.
  split; [reflexivity|].
  exact (invalid_output_raises Sample.E "bmw" "xml" eq_refl).
Defined.

(** Claim C7 as it was stated fails for the price: "DICT" is outside the
    two formats, and the call requests the page and returns a dictionary. *)
Lemma price_upper_case_output :
  Str.mem "DICT" ["dict"; "dataframe"] = false
  /\ run (get_price Sample.E "bmw" "FSE" "DICT") Sample.site import_state
     = {| result :=
            Ok (PriceDict
                  {| Price := Finite false 9532 (-2);
                     Currency := "EUR";
                     Timestamp := "2021-03-05 17:35:12" : datetime Sample.E;
                     Stock := "bmw";
                     Exchange := "FSE" |});
          final := import_state;
          requests := ["https://www.finanzen.net/aktien/bmw@stBoerse_FSE"] |}.
Proof. split; reflexivity. Qed.

(** ** The exchange of a price *)

Lemma quote_no_value_error E soup msg : quote E soup <> Err (ValueError msg).
Proof.
  unfold quote, Soup.get_text_opt.
  destruct (Soup.find_class "div" "snapshot__values" _) as [quotebox|];
    [|discriminate].
  destruct (Soup.find_class "span" _ quotebox); [|discriminate]. cbn [res_bind].
  destruct (parse_price E _); [|discriminate]. cbn [res_bind external].
  destruct (Soup.find_class "div" "snapshot__time" _); [|discriminate].
  destruct (Soup.find "time" _) as [tm|]; [|discriminate].
  destruct tm as [? ? attrs ?|]; [|discriminate]. cbn [Soup.attr].
  destruct (List.find _ attrs) as [[? ?]|]; [|discriminate]. cbn [res_bind].
  destruct (parse_timestamp E _); discriminate.
Qed.

(** Whatever the allow-list, the site and the page: "DICT" is never
    refused as an output format of [get_price]. *)
Lemma price_accepts_upper_case_output E stock exchange w st :
  result (run (get_price E stock exchange "DICT") w st) <> Err price_output_error.
Proof.
  unfold run, get_price.
  destruct (Str.mem (Str.upper exchange) (exchanges E)); cbv [negb].
  2:{ cbn. unfold exchange_error, price_output_error. cbn. discriminate. }
  change (Str.mem (Str.lower "DICT") ["dict"; "dataframe"]) with true. cbv iota.
  rewrite run_make_soup. destruct (w 0%nat _) as [src|]; [|discriminate].
  cbv zeta. cbn [result].
  destruct (check_data E _); cbn [negb]; [|discriminate].
  destruct (quote E (BeautifulSoup E src)) as [[[p c] t]|e] eqn:Q.
  - cbn. discriminate.
  - cbn. intros [= ->]. exact (quote_no_value_error _ _ _ Q).
Qed.

(** When the arguments pass, the page is there and accepted and the quote
    can be read, [get_price] returns the record, in the shape asked for. *)
Lemma get_price_returns E stock exchange output w st src p c t :
  Str.mem (Str.upper exchange) (exchanges E) = true ->
  Str.mem (Str.lower output) ["dict"; "dataframe"] = true ->
  w 0%nat ("https://www.finanzen.net/aktien/" ++ Str.lower stock
           ++ "@stBoerse_" ++ Str.upper exchange) = Some src ->
  check_data E (BeautifulSoup E src) = true ->
  quote E (BeautifulSoup E src) = Ok (p, c, t) ->
  result (run (get_price E stock exchange output) w st)
  = Ok (let r := {| Price := p; Currency := c; Timestamp := t;
                    Stock := Str.lower stock;
                    Exchange := Str.upper exchange |} in
        if Str.lower output =? "dataframe" then PriceFrame [r] else PriceDict r).
Proof.
  intros Hx Ho Hw Hc Hq. unfold run, get_price. rewrite Hx, Ho. cbv [negb].
  rewrite run_make_soup, Hw. cbv zeta. cbn [result]. rewrite Hc. cbn [negb].
  rewrite Hq. cbn [lift bind].
  now destruct (Str.lower output =? "dataframe").
Qed.

(** Claim C10.  When the exchange in upper case is in the allow-list,
    [get_price] does not raise the ValueError of the exchange, and the
    Exchange of what it returns is the code in upper case; and it does
    return, with that Exchange, when the output format passes, the page is
    there and accepted and the quote can be read. *)
Theorem exchange_upper_case E stock exchange output w st :
  Str.mem (Str.upper exchange) (exchanges E) = true ->
  result (run (get_price E stock exchange output) w st) <> Err (exchange_error E)
  /\ (forall v, result (run (get_price E stock exchange output) w st) = Ok v ->
       exchange_is (Str.upper exchange) v)
  /\ (forall src p c t,
        Str.mem (Str.lower output) ["dict"; "dataframe"] = true ->
        w 0%nat ("https://www.finanzen.net/aktien/" ++ Str.lower stock
                 ++ "@stBoerse_" ++ Str.upper exchange) = Some src ->
        check_data E (BeautifulSoup E src) = true ->
        quote E (BeautifulSoup E src) = Ok (p, c, t) ->
        result (run (get_price E stock exchange output) w st)
        = Ok (let r := {| Price := p; Currency := c; Timestamp := t;
                          Stock := Str.lower stock;
                          Exchange := Str.upper exchange |} in
              if Str.lower output =? "dataframe"
              then PriceFrame [r] else PriceDict r)).
Proof.
  intros Hx.
  assert (H12 :
    result (run (get_price E stock exchange output) w st) <> Err (exchange_error E)
    /\ (forall v, result (run (get_price E stock exchange output) w st) = Ok v ->
         exchange_is (Str.upper exchange) v)).
  { unfold run, get_price. rewrite Hx. cbv [negb].
    destruct (Str.mem (Str.lower output) ["dict"; "dataframe"]); cbv [negb].
    2:{ split; [discriminate|]. cbn. discriminate. }
    rewrite run_make_soup. destruct (w 0%nat _) as [src|].
    2:{ split; [discriminate|]. cbn. discriminate. }
    cbv zeta. cbn [result].
    destruct (check_data E _); cbn [negb].
    2:{ split; [discriminate|]. cbn. discriminate. }
    destruct (quote E (BeautifulSoup E src)) as [[[p c] t]|e] eqn:Q.
    2:{ cbn. split; [|discriminate]. intros X. injection X as X. subst e.
        exact (quote_no_value_error _ _ _ Q). }
    cbn [lift bind].
    destruct (Str.lower output =? "dataframe"); cbn; (split; [discriminate|]);
      intros v X; injection X as <-; cbn; eauto. }
  destruct H12 as [H1 H2]. split; [exact H1|]. split; [exact H2|].
  intros src p c t Ho Hw Hc Hq.
  now apply (get_price_returns E stock exchange output w st src p c t).
Qed.

Lemma exchange_upper_case_witness :
  Str.mem (Str.upper "fse") (exchanges Sample.E) = true
  /\ result (run (get_price Sample.E "bmw-aktie" "fse" "dict")
               Sample.site import_state)
     = Ok (PriceDict
             {| Price := Finite false 9532 (-2);
                Currency := "EUR";
                Timestamp := "2021-03-05 17:35:12" : datetime Sample.E;
                Stock := "bmw-aktie";
                Exchange := "FSE" |})
  /\ result (run (get_price Sample.E "bmw-aktie" "fse" "dataframe")
               Sample.site import_state)
     = Ok (PriceFrame
             [{| Price := Finite false 9532 (-2);
                 Currency := "EUR";
                 Timestamp := "2021-03-05 17:35:12" : datetime Sample.E;
                 Stock := "bmw-aktie";
                 Exchange := "FSE" |}]).
Proof.
  split; [reflexivity|]. split.
  - exact (proj2 (proj2 (exchange_upper_case Sample.E "bmw-aktie" "fse" "dict"
                           Sample.site import_state eq_refl))
             "https://www.finanzen.net/aktien/bmw-aktie@stBoerse_FSE"
             (Finite false 9532 (-2)) "EUR" "2021-03-05 17:35:12"
             eq_refl eq_refl eq_refl eq_refl).
  - exact (proj2 (proj2 (exchange_upper_case Sample.E "bmw-aktie" "fse" "dataframe"
                           Sample.site import_state eq_refl))
             "https://www.finanzen.net/aktien/bmw-aktie@stBoerse_FSE"
             (Finite false 9532 (-2)) "EUR" "2021-03-05 17:35:12"
             eq_refl eq_refl eq_refl eq_refl).
Defined.

(** ** The dictionary of the fundamentals *)

(** Claim C6.  What [get_fundamentals] returns for the output "dict" is a
    dictionary with the keys Quotes, Key Ratios, Income Statement, Balance
    Sheet and Other and no other; the value of each is the table parsed for
    it, or [None]. *)
Theorem dict_five_categories E stock w st v :
  result (run (get_fundamentals E stock "dict") w st) = Ok v ->
  exists d : Dict.t string (option table_dict),
    v = FundamentalsDict d
    /\ Dict.keys d
       = ["Quotes"; "Key Ratios"; "Income Statement"; "Balance Sheet"; "Other"]
    /\ exists soup, d = sections soup.
Proof.
  unfold run, get_fundamentals. cbn [Str.mem existsb String.eqb Ascii.eqb Bool.eqb orb negb].
  change (negb (Str.mem "dict" ["dataframe"; "dict"])) with false. cbv iota.
  rewrite run_make_soup. destruct (w 0%nat _) as [src|]; [|discriminate].
  cbv zeta. cbn [result].
  destruct (check_data E _); cbn [negb]; [|discriminate].
  change ("dict" =? "dict") with true. cbv iota. cbn [run_from result].
  intros [= <-]. eexists. split; [reflexivity|]. split; [reflexivity|].
  now exists (BeautifulSoup E src).
Qed.

Lemma dict_five_categories_witness :
  result (run (get_fundamentals Sample.E "bmw" "dict") Sample.site import_state)
  = Ok (FundamentalsDict (sections Sample.full_page))
  /\ exists d : Dict.t string (option table_dict),
       FundamentalsDict (sections Sample.full_page) = FundamentalsDict d
       /\ Dict.keys d
          = ["Quotes"; "Key Ratios"; "Income Statement"; "Balance Sheet"; "Other"]
       /\ exists soup, d = sections soup.
Proof.
  split; [reflexivity|].
  exact (dict_five_categories Sample.E "bmw" Sample.site import_state
           (FundamentalsDict (sections Sample.full_page)) eq_refl).
Defined.

Lemma frames_need_all_sections d : forall k acc,
  In (k, None) d -> fundamentals_frames d acc = Err TypeError.
Proof.
  induction d as [|[f [m|]] d IH]; intros k acc H; [destruct H| |reflexivity].
  destruct H as [H|H]; [discriminate|]. cbn. eapply IH; eassumption.
Qed.

(** ** The limit of a search *)

Lemma search_lxml_rows_all E limit : (limit < 0)%Z -> forall data df,
  search_lxml_rows E 1 limit df data
  = (rows <- res_map (search_lxml_row E) data ;; Ok (df ++ rows)%list)%res.
Proof.
  intros H. induction data as [|r data IH]; intros df.
  - cbn. now rewrite app_nil_r.
  - cbn [search_lxml_rows res_map]. change (1 =? 0)%Z with false. cbv iota.
    destruct (search_lxml_row E r) as [row|e]; [|reflexivity]. cbn [res_bind].
    replace (limit =? 0)%Z with false by (symmetry; apply Z.eqb_neq; lia).
    replace (limit >? 0)%Z with false by (symmetry; rewrite Z.gtb_ltb; apply Z.ltb_ge; lia).
    rewrite IH. destruct (res_map _ data); cbn; [|reflexivity].
    now rewrite <- app_assoc.
Qed.

Lemma search_lxml_rows_zero E data df :
  search_lxml_rows E 1 0 df data
  = match data with
    | [] => Ok df
    | r :: _ => (_ <- search_lxml_row E r ;; Ok df)%res
    end.
Proof. destruct data as [|r data]; reflexivity. Qed.

Lemma run_check_site {A} url (k : unit -> prog A) w i st :
  run_from (bind (check_site_availability url) k) w i st
  = match w i url with
    | Some _ =>
        let o := run_from (k tt) w (S i) st in
        {| result := result o; final := final o; requests := url :: requests o |}
    | None => {| result := Err SystemExit; final := st; requests := [url] |}
    end.
Proof. cbn. now destruct (w i url). Qed.

Lemma run_requests_get {A} url (k : string -> prog A) w i st :
  run_from (bind (requests_get url) k) w i st
  = match w i url with
    | Some body =>
        let o := run_from (k body) w (S i) st in
        {| result := result o; final := final o; requests := url :: requests o |}
    | None => {| result := Err RequestException; final := st; requests := [url] |}
    end.
Proof. cbn. now destruct (w i url). Qed.

Lemma bind_bind {A B C} (m : prog A) (f : A -> prog B) (g : B -> prog C) w i st :
  run_from (bind (bind m f) g) w i st
  = run_from (bind m (fun a => bind (f a) g)) w i st.
Proof.
  revert w i st. induction m as [a|e|url k IH|msg k IH|l k IH|l v k IH];
    intros w i st; cbn; try reflexivity; try apply IH.
  now rewrite IH.
Qed.


Lemma result_search_stock_lxml E stock limit results w st b0 text parser first data :
  w 0%nat base_url = Some b0 ->
  w 1%nat (search_url stock) = Some text ->
  fromstring E text = Some parser ->
  xpath E parser table_xpath = first :: data ->
  result (run (search_stock_lxml E stock limit results) w st)
  = search_lxml_rows E 1 limit [] data.
Proof.
  intros H0 H1 Hp Hx. unfold run, search_stock_lxml, get_parser.
  cbn [Dict.get functions String.eqb Ascii.eqb Bool.eqb].
  change ("search" =? "search") with true. cbv iota.
  rewrite bind_bind, run_check_site, H0. cbv zeta. cbn [result].
  rewrite bind_bind, run_requests_get.
  change (base_url ++ "/suchergebnis.asp?_search=" ++ stock) with (search_url stock).
  rewrite H1. cbv zeta. cbn [result]. rewrite Hp. cbn [external lift bind].
  rewrite Hx. cbn [List.length Nat.eqb]. rewrite run_from_lift. reflexivity.
Qed.


(** Claim C8.  With a negative limit a search returns all the matches,
    with the limit 0 it returns none.  For [search_stock] the matches are
    those of the category "stock" on the page; for [search_stock_lxml] they
    are the rows after the first, and a row that cannot be read raises
    before the limit is looked at. *)
Theorem search_limit E stock limit w st :
  (forall body,
     w 0%nat ("https://www.finanzen.net/suchergebnis.asp?_search=" ++ stock)
     = Some body ->
     ((limit < 0)%Z ->
      result (run (search_stock E stock limit) w st)
      = Ok (stock_hits E (BeautifulSoup E body)))
     /\ (limit = 0%Z ->
         result (run (search_stock E stock limit) w st) = Ok []))
  /\ (forall results b0 text parser first data,
        w 0%nat base_url = Some b0 ->
        w 1%nat (search_url stock) = Some text ->
        fromstring E text = Some parser ->
        xpath E parser table_xpath = first :: data ->
        ((limit < 0)%Z ->
         result (run (search_stock_lxml E stock limit results) w st)
         = res_map (search_lxml_row E) data)
        /\ (limit = 0%Z ->
            result (run (search_stock_lxml E stock limit results) w st)
            = match data with
              | [] => Ok []
              | r :: _ => (_ <- search_lxml_row E r ;; Ok [])%res
              end)).
Proof.
  split.
  - intros body Hb. unfold run, search_stock, search.
    rewrite run_make_soup, Hb. cbv zeta. cbn [result run_from].
    split; intros H.
    + replace (limit <? 0)%Z with true by (symmetry; apply Z.ltb_lt; lia).
      reflexivity.
    + subst limit. reflexivity.
  - intros results b0 text parser first data H0 H1 Hp Hx.
    rewrite (result_search_stock_lxml E stock limit results w st b0 text parser first data)
      by assumption.
    split; intros H.
    + rewrite search_lxml_rows_all by assumption.
      destruct (res_map _ data); reflexivity.
    + subst limit. apply search_lxml_rows_zero.
Qed.

Lemma search_limit_witness :
  result (run (search_stock Sample.E "bmw" (-1)) Sample.site import_state)
  = Ok [("BMW", "bmw", "DE0005190003", "519000");
        ("BMW Vz.", "bmw_vz", "DE0005190037", "519003")]
  /\ result (run (search_stock_lxml Sample.E "bmw" (-1)
                    results_search_stock_lxml) Sample.site import_state)
     = Ok [("BMW", "bmw", "DE0005190003", "519000");
           ("BMW Vz.", "bmw_vz", "DE0005190037", "519003")].
Proof.
  split.
  - exact (proj1 (proj1 (search_limit Sample.E "bmw" (-1) Sample.site import_state)
                    _ eq_refl) eq_refl).
  - exact (proj1 (proj2 (search_limit Sample.E "bmw" (-1) Sample.site import_state)
                    results_search_stock_lxml _ _ _ _ _
                    eq_refl eq_refl eq_refl eq_refl) eq_refl).
Defined.

(** ** Programs that leave the list objects alone *)

Create HintDb stateless.
#[local] Hint Constructors stateless : stateless.

Lemma stateless_bind {A B} (m : prog A) (k : A -> prog B) :
  stateless m -> (forall a, stateless (k a)) -> stateless (bind m k).
Proof.
  intros Hm Hk. induction Hm; cbn; auto with stateless.
Qed.

Lemma stateless_lift {A} (m : res A) : stateless (lift m).
Proof. destruct m; constructor. Qed.

Lemma stateless_requests_get url : stateless (requests_get url).
Proof. constructor. intros [body|]; constructor. Qed.

Lemma stateless_make_soup E url : stateless (_make_soup E url).
Proof.
  apply stateless_bind; [apply stateless_requests_get | constructor].
Qed.

Lemma stateless_check_site url : stateless (check_site_availability url).
Proof. constructor. intros [body|]; constructor. Qed.

Lemma stateless_for_each {A S} (body : S -> A -> prog S) l :
  (forall s x, stateless (body s x)) -> forall s, stateless (for_each l s body).
Proof.
  intros Hb. induction l as [|x l IH]; intros s; cbn [for_each].
  - constructor.
  - apply stateless_bind; [apply Hb | apply IH].
Qed.

#[local] Hint Resolve stateless_bind stateless_lift stateless_requests_get
  stateless_make_soup stateless_check_site stateless_for_each : stateless.

Ltac stateless_step :=
  match goal with
  | |- stateless (let _ := _ in _) => cbv zeta
  | |- stateless (Warn _ _) => constructor
  | |- stateless (if ?b then _ else _) => destruct b
  | |- stateless (match ?x with _ => _ end) => destruct x
  | |- stateless (bind _ _) => apply stateless_bind; [|intros]
  | |- stateless (for_each _ _ _) => apply stateless_for_each; intros
  | |- stateless _ => solve [auto with stateless]
  end.

Lemma stateless_get_parser E function stock_name :
  stateless (get_parser E function stock_name).
Proof. unfold get_parser. repeat stateless_step. Qed.

#[local] Hint Resolve stateless_get_parser : stateless.

Lemma stateless_exec E c : stateless (exec E c).
Proof.
  destruct c; cbn [exec]; (apply stateless_bind; [|intros; constructor]).
  - unfold get_fundamentals. repeat stateless_step.
  - unfold get_estimates. repeat stateless_step.
  - unfold get_price. repeat stateless_step.
  - unfold search_stock, search. repeat stateless_step.
  - apply stateless_check_site.
  - apply stateless_get_parser.
  - unfold get_estimates_lxml. repeat stateless_step.
  - unfold get_fundamentals_lxml. repeat stateless_step.
  - unfold get_current_value_lxml. repeat stateless_step.
  - unfold search_stock_lxml. repeat stateless_step.
Qed.

Lemma heap_warn msg st : heap (warn msg st) = heap st.
Proof. reflexivity. Qed.

(** Neither the result nor the requests of such a program depend on the
    state it starts in, and the list objects are the same afterwards. *)
Lemma run_stateless {A} (p : prog A) :
  stateless p ->
  forall w i st1 st2,
    result (run_from p w i st1) = result (run_from p w i st2)
    /\ requests (run_from p w i st1) = requests (run_from p w i st2)
    /\ heap (final (run_from p w i st1)) = heap st1.
Proof.
  induction 1 as [a|e|url k Hk IH|msg k Hk IH]; intros w i st1 st2; cbn.
  - auto.
  - auto.
  - destruct (IH (w i url) w (S i) st1 st2) as (R & Q & H).
    repeat split; [assumption | now f_equal | assumption].
  - destruct (IH w i (warn msg st1) (warn msg st2)) as (R & Q & H).
    repeat split; [assumption | assumption |]. now rewrite H, heap_warn.
Qed.

(** Claim C9.  Whatever call was made before, a call of a public function
    returns what it returns without it, and requests the same: in
    particular the same call made twice on the same answers of the site
    returns the same twice.  No call changes a list object, the defaults
    of the [results] parameters among them. *)
Theorem calls_independent E (c1 c2 : call) (w1 w2 : web) (st : pstate) :
  let st' := final (run (exec E c1) w1 st) in
  result (run (exec E c2) w2 st') = result (run (exec E c2) w2 st)
  /\ requests (run (exec E c2) w2 st') = requests (run (exec E c2) w2 st)
  /\ heap st' = heap st.
Proof.
  cbv zeta. unfold run.
  destruct (run_stateless _ (stateless_exec E c2) w2 0%nat
              (final (run_from (exec E c1) w1 0 st)) st) as (R & Q & _).
  destruct (run_stateless _ (stateless_exec E c1) w1 0%nat st st) as (_ & _ & H).
  auto.
Qed.

(** ** A section that cannot be parsed *)

Lemma run_get_fundamentals_frame E stock w st src :
  w 0%nat ("https://www.finanzen.net/bilanz_guv/" ++ strip_aktie stock) = Some src ->
  check_data E (BeautifulSoup E src) = true ->
  result (run (get_fundamentals E stock "dataframe") w st)
  = (df_list <- fundamentals_frames (sections (BeautifulSoup E src)) [] ;;
     fundamentals_df <- pd_concat df_list ;;
     Ok (FundamentalsFrame fundamentals_df))%res.
Proof.
  intros Hw Hc. unfold run, get_fundamentals.
  change (negb (Str.mem "dataframe" ["dataframe"; "dict"])) with false. cbv iota.
  rewrite run_make_soup, Hw. cbv zeta. cbn [result]. rewrite Hc. cbn [negb].
  change ("dataframe" =? "dict") with false. cbv iota.
  now rewrite run_from_lift.
Qed.

(** With the output "dataframe" one section that is [None] is enough for
    the call to raise. *)
Lemma frame_raises_on_missing_section E stock w st src k :
  w 0%nat ("https://www.finanzen.net/bilanz_guv/" ++ strip_aktie stock) = Some src ->
  check_data E (BeautifulSoup E src) = true ->
  In (k, None) (sections (BeautifulSoup E src)) ->
  result (run (get_fundamentals E stock "dataframe") w st) = Err TypeError.
Proof.
  intros Hw Hc Hk.
  rewrite (run_get_fundamentals_frame E stock w st src Hw Hc).
  now rewrite (frames_need_all_sections _ k [] Hk).
Qed.

(** The estimates have no such guard: what the parsing of the table raises,
    the call raises. *)
Lemma estimates_not_isolated E stock output w st src e :
  Str.mem output ["dataframe"; "dict"] = true ->
  w 0%nat ("https://www.finanzen.net/schaetzungen/" ++ strip_aktie stock) = Some src ->
  check_data E (BeautifulSoup E src) = true ->
  estimates_table (BeautifulSoup E src) = Err e ->
  result (run (get_estimates E stock output) w st) = Err e.
Proof.
  intros Ho Hw Hc He. unfold run, get_estimates. rewrite Ho. cbv [negb].
  rewrite run_make_soup, Hw. cbv zeta. cbn [result]. rewrite Hc. cbn [negb].
  now rewrite He.
Qed.

(** Claim C3, where the code departs from it.  On a page that has the
    income statement only, [get_fundamentals] returns the dictionary with
    [None] for the other four sections, but with the output "dataframe" it
    raises TypeError after the one request. *)
Theorem missing_section_breaks_frame :
  result (run (get_fundamentals Sample.E "siemens" "dict")
            Sample.site import_state)
  = Ok (FundamentalsDict
          [("Quotes", None);
           ("Key Ratios", None);
           ("Income Statement",
            Some [("Umsatzerlöse",
                   [(2020%Z, Some (Finite false 1000 0));
                    (2021%Z, Some (Finite false 1200 0))])]);
           ("Balance Sheet", None);
           ("Other", None)])
  /\ run (get_fundamentals Sample.E "siemens" "dataframe")
         Sample.site import_state
     = {| result := Err TypeError;
          final := import_state;
          requests := ["https://www.finanzen.net/bilanz_guv/siemens"] |}.
Proof. split; reflexivity. Qed.

(** ** Some values *)

Example float_of_plain : Num.float "1234.56" = Ok (Finite false 123456 (-2)).
Proof. reflexivity. Qed.

Example float_of_exponent : Num.float " -1_0.5e+3 " = Ok (Finite true 105 2).
Proof. reflexivity. Qed.

Example float_of_dash : Num.float "-" = Err Num.float_error.
Proof. reflexivity. Qed.

Example int_of_year : Num.int "2021" = Ok 2021%Z.
Proof. reflexivity. Qed.

Example replace_aktie :
  Str.replace "-aktie" EmptyString "/aktien/bmw-aktie" = "/aktien/bmw".
Proof. reflexivity. Qed.

Example split_instrument :
  Str.split "/" "WKN: 1 / ISIN: 2" = ["WKN: 1 "; " ISIN: 2"].
Proof. reflexivity. Qed.

Example strip_blanks : Str.strip "  a b  " = "a b".
Proof. reflexivity. Qed.

Example estimates_of_sample :
  result (run (get_estimates Sample.E "bmw-aktie" "dict") Sample.site import_state)
  = Ok (EstimatesDict
          [("Dividende",
            [("2022e", Some (Finite false 580 (-2))); ("2023e", None)])]).
Proof. reflexivity. Qed.

Example frame_of_full_page :
  exists rows,
    result (run (get_fundamentals Sample.E "bmw" "dataframe")
              Sample.site import_state)
    = Ok (FundamentalsFrame rows)
    /\ List.length rows = 10%nat.
Proof. eexists. split; reflexivity. Qed.

(* ================================================================= *)
(** * Further properties *)

(** ** The identifier in the URL *)

Lemma take_drop n s : Str.take n s ++ Str.drop n s = s.
Proof.
  revert s. induction n as [|n IH]; intros s; [reflexivity|].
  destruct s as [|c s]; [reflexivity|]. cbn. now rewrite IH.
Qed.

Lemma lower_char_idempotent c : Str.lower_char (Str.lower_char c) = Str.lower_char c.
Proof. destruct c as [[] [] [] [] [] [] [] []]; reflexivity. Qed.

Lemma upper_char_idempotent c : Str.upper_char (Str.upper_char c) = Str.upper_char c.
Proof. destruct c as [[] [] [] [] [] [] [] []]; reflexivity. Qed.

Lemma lower_idempotent s : Str.lower (Str.lower s) = Str.lower s.
Proof.
  unfold Str.lower. induction s as [|c s IH]; cbn; [reflexivity|].
  now rewrite lower_char_idempotent, IH.
Qed.

Lemma upper_idempotent s : Str.upper (Str.upper s) = Str.upper s.
Proof.
  unfold Str.upper. induction s as [|c s IH]; cbn; [reflexivity|].
  now rewrite upper_char_idempotent, IH.
Qed.

Lemma lower_splits stock :
  Str.lower stock
  = strip_aktie stock
    ++ (if Str.endswith (Str.lower stock) "-aktie" then "-aktie" else EmptyString).
Proof.
  unfold strip_aktie.
  destruct (Str.endswith (Str.lower stock) "-aktie") eqn:H.
  - unfold re_sub_at_end. rewrite H.
    unfold Str.endswith in H. apply andb_true_iff in H as [_ H].
    apply String.eqb_eq in H.
    set (t := Str.lower stock) in *.
    transitivity (Str.take (String.length t - String.length "-aktie") t
                  ++ Str.drop (String.length t - String.length "-aktie") t).
    + symmetry. apply take_drop.
    + now rewrite H.
  - now rewrite append_empty_r.
Qed.

(** X1.  The one URL that [get_fundamentals] and [get_estimates] ask for ends
    in the identifier in lower case, less one "-aktie" at its end if there
    is one; the suffix counts in any case of its letters. *)
Theorem url_identifier E stock output w st :
  Str.mem output ["dataframe"; "dict"] = true ->
  exists id,
    Str.lower stock
    = id ++ (if Str.endswith (Str.lower stock) "-aktie"
             then "-aktie" else EmptyString)
    /\ requests (run (get_fundamentals E stock output) w st)
       = ["https://www.finanzen.net/bilanz_guv/" ++ id]
    /\ requests (run (get_estimates E stock output) w st)
       = ["https://www.finanzen.net/schaetzungen/" ++ id].
Proof.
  intros Ho. exists (strip_aktie stock). split; [apply lower_splits|]. split.
  - now apply requests_get_fundamentals.
  - now apply requests_get_estimates.
Qed.

Lemma url_identifier_witness :
  Str.mem "dict" ["dataframe"; "dict"] = true
  /\ exists id,
       "bmw-aktie" = id ++ "-aktie"
       /\ requests (run (get_fundamentals Sample.E "BMW-AKTIE" "dict")
                      Sample.site import_state)
          = ["https://www.finanzen.net/bilanz_guv/" ++ id]
       /\ requests (run (get_estimates Sample.E "BMW-AKTIE" "dict")
                      Sample.site import_state)
          = ["https://www.finanzen.net/schaetzungen/" ++ id].
Proof.
  split; [reflexivity|].
  exact (url_identifier Sample.E "BMW-AKTIE" "dict" Sample.site import_state
           eq_refl).
Defined.

Lemma strip_aktie_lower s : strip_aktie (Str.lower s) = strip_aktie s.
Proof. unfold strip_aktie. now rewrite lower_idempotent. Qed.

(** X2.  The three retrieval functions do not tell the case of the identifier;
    [get_price] does not tell the case of the exchange and of the output
    format either. *)
Theorem retrieval_ignores_case E stock exchange output :
  get_fundamentals E (Str.lower stock) output = get_fundamentals E stock output
  /\ get_estimates E (Str.lower stock) output = get_estimates E stock output
  /\ get_price E (Str.lower stock) (Str.upper exchange) (Str.lower output)
     = get_price E stock exchange output.
Proof.
  unfold get_fundamentals, get_estimates, get_price.
  rewrite !strip_aktie_lower, !lower_idempotent, upper_idempotent.
  repeat split.
Qed.

(** ** More on the cells *)

Lemma points_are_ignored a b :
  fundamentals_cell (a ++ "." ++ b) = fundamentals_cell (a ++ b).
Proof.
  unfold fundamentals_cell. now rewrite !re_sub_char_app.
Qed.

(** X3.  A point is deleted wherever it stands: a number in the English
    notation, with a decimal point, is read as the integer of all its
    digits. *)
Theorem english_notation_misread ds1 ds2 :
  ds1 <> [] -> German.is_digits (ds1 ++ ds2)%list = true ->
  fundamentals_cell (German.digits_str ds1 ++ "." ++ German.digits_str ds2)
  = Ok (Some (Finite false (German.digits_val (ds1 ++ ds2)%list) 0)).
Proof.
  intros Hn Hd. rewrite points_are_ignored, <- digits_str_app.
  set (g := {| German.negative := false; German.head := (ds1 ++ ds2)%list;
               German.groups := []; German.decimals := [] |}).
  assert (W : German.well_formed g = true).
  { unfold German.well_formed, g.
    cbn [German.head German.groups German.decimals]. rewrite Hd.
    destruct ds1; [congruence | reflexivity]. }
  assert (R : German.render g = German.digits_str (ds1 ++ ds2)%list).
  { unfold German.render. cbn. now rewrite !append_empty_r. }
  rewrite <- R. unfold fundamentals_cell.
  rewrite (normalized_text g W), (plain_not_token g W), (float_plain_text g W).
  unfold German.value, German.integer_part. cbn.
  now rewrite N.mul_1_r, N.add_0_r.
Qed.

Lemma english_notation_misread_witness :
  [1%N; 2%N; 3%N; 4%N] <> []
  /\ German.is_digits ([1%N; 2%N; 3%N; 4%N] ++ [5%N; 6%N])%list = true
  /\ fundamentals_cell "1234.56" = Ok (Some (Finite false 123456 0)).
Proof.
  split; [discriminate|]. split; [reflexivity|].
  exact (english_notation_misread [1; 2; 3; 4]%N [5; 6]%N
           ltac:(discriminate) eq_refl).
Defined.

Lemma delete_outside_app keep a b :
  Str.re_sub_delete_outside keep (a ++ b)
  = Str.re_sub_delete_outside keep a ++ Str.re_sub_delete_outside keep b.
Proof.
  induction a as [|c a IH]; cbn; [reflexivity|].
  destruct (keep c); cbn; now rewrite IH.
Qed.

Lemma delete_outside_digits ds :
  German.is_digits ds = true ->
  Str.re_sub_delete_outside is_digit_or_comma (German.digits_str ds)
  = German.digits_str ds.
Proof.
  induction ds as [|d ds IH]; cbn; [reflexivity|].
  intros H. apply andb_true_iff in H as [Hd Hds].
  unfold is_digit_or_comma at 1. rewrite (digit_char_is_digit d Hd). cbn.
  now rewrite IH.
Qed.

Lemma delete_outside_groups gs :
  forallb (fun grp => Nat.eqb (List.length grp) 3 && German.is_digits grp) gs = true ->
  Str.re_sub_delete_outside is_digit_or_comma
    (String.concat EmptyString (List.map (fun grp => "." ++ German.digits_str grp) gs))
  = German.digits_str (List.concat gs).
Proof.
  induction gs as [|g gs IH]; [reflexivity|].
  intros H. cbn [forallb] in H. apply andb_true_iff in H as [Hg Hgs].
  apply andb_true_iff in Hg as [_ Hg].
  cbn [List.map List.concat].
  rewrite concat_empty_cons, delete_outside_app, IH by assumption.
  rewrite digits_str_app. f_equal.
  change ("." ++ German.digits_str g) with (String "." (German.digits_str g)).
  cbn [Str.re_sub_delete_outside]. change (is_digit_or_comma ".") with false.
  cbv iota. now apply delete_outside_digits.
Qed.

(** What the estimates keep of the text of a number. *)
Lemma estimates_kept_text g suffix :
  German.well_formed g = true -> no_digit_or_comma suffix = true ->
  Str.re_sub_char "," "."
    (Str.re_sub_delete_outside is_digit_or_comma (German.render g ++ suffix))
  = unsigned_plain g.
Proof.
  intros H Hs. destruct (well_formed_parts g H) as (_ & Hh & Hg & Hd).
  apply String.eqb_eq in Hs.
  unfold German.render, unsigned_plain, all_digits.
  rewrite !delete_outside_app, Hs, delete_outside_groups by assumption.
  rewrite (delete_outside_digits _ Hh), append_empty_r.
  replace (Str.re_sub_delete_outside is_digit_or_comma
             (if German.negative g then "-" else EmptyString))
    with EmptyString by (now destruct (German.negative g)).
  cbn [String.append]. rewrite !re_sub_char_app.
  rewrite (re_sub_char_digits "," _ (German.head g)) by (reflexivity || assumption).
  rewrite (re_sub_char_digits "," _ (List.concat _))
    by (reflexivity || now apply groups_is_digits).
  rewrite digits_str_app, append_assoc'. do 2 f_equal.
  destruct (German.decimals g) as [|d ds]; [reflexivity|].
  change ("," ++ German.digits_str (d :: ds))
    with (String "," (German.digits_str (d :: ds))).
  cbn [Str.re_sub_delete_outside]. change (is_digit_or_comma ",") with true.
  cbv iota. rewrite (delete_outside_digits _ Hd).
  cbn [Str.re_sub_char]. change (Ascii.eqb "," ",") with true. cbv iota.
  now rewrite (re_sub_char_digits "," _ (d :: ds)) by (reflexivity || assumption).
Qed.

Lemma render_not_dash g suffix :
  German.well_formed g = true -> (German.render g ++ suffix =? "-") = false.
Proof.
  intros H. destruct (well_formed_parts g H) as (Hn & Hh & _).
  unfold German.render. destruct (German.head g) as [|d hd]; [congruence|].
  unfold German.is_digits in Hh. cbn [forallb] in Hh.
  apply andb_true_iff in Hh as [Hd _].
  destruct (German.negative g); cbn [German.digits_str String.append].
  - reflexivity.
  - digit_cases d Hd.
Qed.

(** X4.  The estimates read the digits and the comma of a cell and nothing
    else: of a number in the German notation, whatever text without digits
    follows it, the cell is the value without the sign. *)
Theorem estimates_cell_drops_sign g suffix :
  German.well_formed g = true -> no_digit_or_comma suffix = true ->
  estimates_cell (German.render g ++ suffix)
  = Ok (Some (German.value (unsigned g))).
Proof.
  intros H Hs. unfold estimates_cell.
  rewrite (render_not_dash g suffix H). cbn [negb option_map].
  rewrite (estimates_kept_text g suffix H Hs).
  change (unsigned_plain g) with (plain (unsigned g)).
  now rewrite (float_plain_text (unsigned g) H).
Qed.

Lemma estimates_cell_drops_sign_witness :
  German.well_formed
    {| German.negative := true; German.head := [5%N];
       German.groups := []; German.decimals := [8%N; 0%N] |} = true
  /\ no_digit_or_comma " EUR" = true
  /\ estimates_cell "-5,80 EUR" = Ok (Some (Finite false 580 (-2))).
Proof.
  split; [reflexivity|]. split; [reflexivity|].
  exact (estimates_cell_drops_sign
           {| German.negative := true; German.head := [5%N];
              German.groups := []; German.decimals := [8%N; 0%N] |}
           " EUR" eq_refl eq_refl).
Defined.



(** ** Sequencing *)

Lemma run_from_bind {A B} (m : prog A) (k : A -> prog B) : forall w i st,
  run_from (bind m k) w i st
  = let o := run_from m w i st in
    match result o with
    | Ok a =>
        let o2 := run_from (k a) w (i + List.length (requests o)) (final o) in
        {| result := result o2; final := final o2;
           requests := (requests o ++ requests o2)%list |}
    | Err e => {| result := Err e; final := final o; requests := requests o |}
    end.
Proof.
  induction m as [a|e|url k0 IH|msg k0 IH|l k0 IH|l v k0 IH]; intros w i st;
    cbn [bind run_from]; cbv zeta.
  - cbn. rewrite Nat.add_0_r. now destruct (run_from (k a) w i st).
  - reflexivity.
  - rewrite IH. cbv zeta. cbn [result final requests List.length].
    destruct (result (run_from (k0 (w i url)) w (S i) st)); [|reflexivity].
    now rewrite Nat.add_succ_r.
  - apply IH.
  - apply IH.
  - apply IH.
Qed.

(** ** The limit of [search_stock_lxml], when it is not negative *)

Lemma search_lxml_rows_limited E n : forall data df,
  search_lxml_rows E 1 (Z.of_nat n) df data
  = (rows <- res_map (search_lxml_row E) (firstn (S n) data) ;;
     Ok (df ++ firstn n rows)%list)%res.
Proof.
  induction n as [|n IH]; intros data df.
  - rewrite search_lxml_rows_zero. destruct data as [|r data]; cbn.
    + now rewrite app_nil_r.
    + destruct (search_lxml_row E r); cbn; [now rewrite app_nil_r | reflexivity].
  - destruct data as [|r data]; [cbn; now rewrite app_nil_r|].
    cbn [search_lxml_rows]. change (1 =? 0)%Z with false. cbv iota.
    change (firstn (S (S n)) (r :: data)) with (r :: firstn (S n) data).
    cbn [res_map].
    destruct (search_lxml_row E r) as [row|e]; [|reflexivity]. cbn [res_bind].
    replace (Z.of_nat (S n) =? 0)%Z with false by (symmetry; apply Z.eqb_neq; lia).
    replace (Z.of_nat (S n) >? 0)%Z with true
      by (symmetry; rewrite Z.gtb_ltb; apply Z.ltb_lt; lia).
    replace (Z.of_nat (S n) - 1)%Z with (Z.of_nat n) by lia.
    rewrite IH. destruct (res_map _ (firstn (S n) data)); cbn; [|reflexivity].
    now rewrite <- app_assoc.
Qed.

(** X6.  With a limit that is not negative [search_stock_lxml] returns the
    first rows, as many as the limit says, and reads one row more than it
    returns: a row that cannot be read raises even when it is the one after
    the last that is returned. *)
Theorem search_lxml_limited E stock limit results w st b0 text parser first data :
  (0 <= limit)%Z ->
  w 0%nat base_url = Some b0 ->
  w 1%nat (search_url stock) = Some text ->
  fromstring E text = Some parser ->
  xpath E parser table_xpath = first :: data ->
  result (run (search_stock_lxml E stock limit results) w st)
  = (rows <- res_map (search_lxml_row E)
               (firstn (S (Z.to_nat limit)) data) ;;
     Ok (firstn (Z.to_nat limit) rows))%res.
Proof.
  intros Hl H0 H1 Hp Hx.
  rewrite (result_search_stock_lxml E stock limit results w st b0 text parser first data)
    by assumption.
  rewrite <- (Z2Nat.id limit) at 1 by assumption.
  apply search_lxml_rows_limited.
Qed.

Lemma search_lxml_limited_witness :
  (0 <= 1)%Z
  /\ result (run (search_stock_lxml Sample.E "bmw" 1 results_search_stock_lxml)
               Sample.site import_state)
     = Ok [("BMW", "bmw", "DE0005190003", "519000")].
Proof.
  split; [lia|].
  exact (search_lxml_limited Sample.E "bmw" 1 results_search_stock_lxml
           Sample.site import_state _ _ _ _ _
           ltac:(lia) eq_refl eq_refl eq_refl eq_refl).
Defined.

(** [%r] at work: the choice of the quotes, the escapes, and the characters
    outside ASCII. *)
Example repr_plain : repr Sample.printable "bmw" = "'bmw'".
Proof. reflexivity. Qed.

Example repr_single_quote :
  repr Sample.printable "mcdonald's" = dq ++ "mcdonald's" ++ dq.
Proof. reflexivity. Qed.

Example repr_both_quotes :
  repr Sample.printable ("a'b" ++ dq ++ "c")
  = "'a" ++ String backslash ("'b" ++ dq ++ "c'").
Proof. reflexivity. Qed.

Example repr_control :
  repr Sample.printable
    ("a" ++ String (ascii_of_nat 10) ("b" ++ String (ascii_of_nat 27)
       ("c" ++ String backslash "d")))
  = "'a" ++ String backslash ("nb" ++ String backslash ("x1bc"
       ++ String backslash (String backslash "d'"))).
Proof. reflexivity. Qed.

Example repr_umlaut : repr Sample.printable "münchener" = "'münchener'".
Proof. reflexivity. Qed.

Example repr_no_break_space :
  repr Sample.printable
    ("a" ++ String (ascii_of_nat 194) (String (ascii_of_nat 160) "b"))
  = "'a" ++ String backslash "xa0b'".
Proof. reflexivity. Qed.

Example repr_wide :
  repr (fun _ => false) "€"
  = "'" ++ String backslash "u20ac'".
Proof. reflexivity. Qed.

(** X7.  A search page without a row: the ValueError with the [%r] of the
    term, after the two requests. *)
Theorem search_lxml_no_rows E stock limit results w st b0 text parser :
  w 0%nat base_url = Some b0 ->
  w 1%nat (search_url stock) = Some text ->
  fromstring E text = Some parser ->
  xpath E parser table_xpath = [] ->
  run (search_stock_lxml E stock limit results) w st
  = {| result := Err (ValueError ("Site did find any entries for " ++ repr (isprintable E) stock));
       final := st;
       requests := [base_url; search_url stock] |}.
Proof.
  intros H0 H1 Hp Hx. unfold run, search_stock_lxml, get_parser.
  change (Dict.get String.eqb "search" functions)
    with (Some "/suchergebnis.asp?_search=").
  cbv iota. rewrite bind_bind, run_check_site, H0. cbv zeta.
  rewrite bind_bind, run_requests_get.
  change (base_url ++ "/suchergebnis.asp?_search=" ++ stock) with (search_url stock).
  rewrite H1. cbv zeta. rewrite Hp. cbn [external lift bind].
  rewrite Hx. reflexivity.
Qed.

Lemma search_lxml_no_rows_witness :
  xpath empty_search_env (Sample.Doc []) table_xpath = []
  /\ run (search_stock_lxml empty_search_env "mcdonald's" (-1)
            results_search_stock_lxml)
        Sample.site import_state
     = {| result :=
            Err (ValueError ("Site did find any entries for "
                             ++ dq ++ "mcdonald's" ++ dq));
          final := import_state;
          requests := ["https://www.finanzen.net";
                       "https://www.finanzen.net/suchergebnis.asp?_search=mcdonald's"] |}.
Proof.
  split; [reflexivity|].
  exact (search_lxml_no_rows empty_search_env "mcdonald's" (-1)
           results_search_stock_lxml Sample.site import_state _ _ _
           eq_refl eq_refl eq_refl eq_refl).
Defined.

(** ** The parser of the helpers *)

Lemma run_from_get_parser E function stock_name path w i st :
  Dict.get String.eqb function functions = Some path ->
  run_from (get_parser E function stock_name) w i st
  = match w i base_url with
    | None => {| result := Err SystemExit; final := st; requests := [base_url] |}
    | Some _ =>
        let url := base_url ++ path ++ stock_name in
        match w (S i) url with
        | None => {| result := Err RequestException; final := st;
                     requests := [base_url; url] |}
        | Some text => {| result := external (fromstring E text); final := st;
                          requests := [base_url; url] |}
        end
    end.
Proof.
  intros H. unfold get_parser. rewrite H.
  rewrite run_check_site. destruct (w i base_url); [|reflexivity].
  cbv zeta. rewrite run_requests_get.
  destruct (w (S i) _); [|reflexivity].
  cbv zeta. rewrite run_from_lift. reflexivity.
Qed.

(** X8.  [get_parser] refuses a function it does not know without a request.
    Otherwise it asks for the home page first, and a failure there ends the
    process; then it asks for the page, and a failure there is the
    exception of [requests]; it asks for nothing else. *)
Theorem get_parser_outcomes E function stock_name w st :
  run (get_parser E function stock_name) w st
  = match Dict.get String.eqb function functions with
    | None =>
        {| result := Err (ValueError ("Got unknown function " ++ repr (isprintable E) function
                                      ++ " in get_parser"));
           final := st; requests := [] |}
    | Some path =>
        match w 0%nat base_url with
        | None => {| result := Err SystemExit; final := st;
                     requests := [base_url] |}
        | Some _ =>
            let url := base_url ++ path ++ stock_name in
            match w 1%nat url with
            | None => {| result := Err RequestException; final := st;
                         requests := [base_url; url] |}
            | Some text => {| result := external (fromstring E text);
                              final := st; requests := [base_url; url] |}
            end
        end
    end.
Proof.
  destruct (Dict.get String.eqb function functions) as [path|] eqn:H.
  - unfold run. now apply run_from_get_parser.
  - unfold run, get_parser. now rewrite H.
Qed.

(** ** The requests of [get_fundamentals_lxml] *)

Lemma fundamentals_parser_requests E stock w i st :
  let o := run_from (get_parser E "fundamentals" stock) w i st in
  (requests o = [base_url] \/ requests o = [base_url; fundamentals_lxml_url stock])
  /\ (forall p, result o = Ok p ->
      requests o = [base_url; fundamentals_lxml_url stock])
  /\ final o = st.
Proof.
  cbv zeta.
  rewrite (run_from_get_parser E "fundamentals" stock "/bilanz_guv/" w i st eq_refl).
  destruct (w i base_url); [|cbn; intuition discriminate].
  cbv zeta. fold (fundamentals_lxml_url stock).
  destruct (w (S i) _); cbn; intuition discriminate.
Qed.

Lemma for_each_requests {A S} (body : S -> A -> prog S) (step : list string) w :
  step <> [] ->
  (forall s x i st,
     let o := run_from (body s x) w i st in
     (exists n, (n <= List.length step)%nat /\ requests o = firstn n step)
     /\ (forall s', result o = Ok s' -> requests o = step)) ->
  forall l s i st,
    let o := run_from (for_each l s body) w i st in
    (exists n, requests o = firstn n (flat_map (fun _ => step) l))
    /\ (forall s', result o = Ok s' -> requests o = flat_map (fun _ => step) l).
Proof.
  intros Hne Hb. induction l as [|x l IH]; intros s i st; cbv zeta.
  - cbn. split; [now exists 0%nat | reflexivity].
  - cbn [for_each flat_map]. rewrite run_from_bind. cbv zeta.
    destruct (Hb s x i st) as [(n & Hn & Hr) Hok].
    destruct (result (run_from (body s x) w i st)) as [s'|e] eqn:R.
    + specialize (Hok s' eq_refl).
      cbn [result requests]. rewrite Hok.
      destruct (IH s' (i + List.length step)%nat
                  (final (run_from (body s x) w i st))) as [(m & Hm) Hok'].
      split.
      * exists (List.length step + m)%nat. rewrite Hm.
        now rewrite firstn_app_2.
      * intros v Hv. now rewrite (Hok' v Hv).
    + cbn [result requests]. split; [|discriminate].
      exists n. rewrite Hr. rewrite firstn_app.
      replace (n - List.length step)%nat with 0%nat by lia.
      cbn [firstn]. now rewrite app_nil_r.
Qed.

(** X9.  [get_fundamentals_lxml] asks for the home page and then for the page
    of the stock once for each of the five tables, in this order and for
    nothing else; a call that returns has made all ten requests. *)
Theorem fundamentals_lxml_ten_requests E stock results w st :
  let o := run (get_fundamentals_lxml E stock results) w st in
  (exists n, requests o = firstn n (fundamentals_lxml_requests stock))
  /\ (forall v, result o = Ok v -> requests o = fundamentals_lxml_requests stock)
  /\ List.length (fundamentals_lxml_requests stock) = 10%nat.
Proof.
  cbv zeta. unfold run, get_fundamentals_lxml. cbn [run_from].
  rewrite run_from_bind. cbv zeta.
  match goal with
  | |- context [run_from (for_each ?l ?s ?body) ?w ?i ?st'] =>
      assert (HB : forall s0 x i0 st0,
                 let o := run_from (body s0 x) w i0 st0 in
                 (exists n, (n <= List.length [base_url; fundamentals_lxml_url stock])%nat
                            /\ requests o = firstn n [base_url; fundamentals_lxml_url stock])
                 /\ (forall s', result o = Ok s' ->
                     requests o = [base_url; fundamentals_lxml_url stock]));
      [| destruct (for_each_requests body [base_url; fundamentals_lxml_url stock] w
                     ltac:(discriminate) HB l s i st') as [(n & Hn) Hok]]
  end.
  - intros s x i st0. cbv zeta. rewrite run_from_bind. cbv zeta.
    destruct (fundamentals_parser_requests E stock w i st0) as (Hp & Hpok & _).
    cbv zeta in Hp, Hpok.
    destruct (result (run_from (get_parser E "fundamentals" stock) w i st0))
      as [p|e] eqn:R.
    + rewrite (Hpok p eq_refl). rewrite run_from_lift. cbn [result requests].
      split; [exists 2%nat; split; [cbn; lia | reflexivity] | reflexivity].
    + cbn [result requests]. split; [|discriminate].
      destruct Hp as [Hp|Hp]; rewrite Hp;
        [exists 1%nat | exists 2%nat]; split; cbn; (lia || reflexivity).
  - fold (fundamentals_lxml_requests stock) in Hn, Hok.
    split; [|split; [|reflexivity]].
    + destruct (result (run_from (for_each _ _ _) w 0 (warn _ st))) as [s'|e];
        cbn [requests].
      * rewrite run_from_lift. cbn [requests]. rewrite app_nil_r. now exists n.
      * now exists n.
    + destruct (result (run_from (for_each _ _ _) w 0 (warn _ st)))
        as [s'|e] eqn:R; cbn [result requests]; [|discriminate].
      intros v _. rewrite run_from_lift. cbn [requests]. rewrite app_nil_r.
      exact (Hok s' eq_refl).
Qed.

(** ** From a search row to the page of the stock *)

Lemma contains_cons pat c s :
  Str.contains pat (String c s) = false ->
  prefix pat (String c s) = false /\ Str.contains pat s = false.
Proof. cbn [Str.contains]. intros H. now apply orb_false_iff in H. Qed.

Lemma replace_no_slash new s :
  Str.contains "/" s = false ->
  Str.replace_from "/aktien/" new 0 (s ++ "-aktie") = s ++ "-aktie".
Proof.
  induction s as [|c s IH]; intros H; [reflexivity|].
  apply contains_cons in H as [Hp Hc].
  cbn [String.append Str.replace_from prefix] in *.
  destruct (ascii_dec "/" c); [destruct s; discriminate|].
  now rewrite IH.
Qed.

(** An occurrence of "-aktie" that starts in [x] lies in [x]. *)
Lemma prefix_aktie_boundary x :
  x <> EmptyString -> prefix "-aktie" (x ++ "-aktie") = prefix "-aktie" x.
Proof.
  intros H. destruct x as [|c1 x]; [congruence|]. clear H.
  cbn [String.append prefix]. destruct (ascii_dec "-" c1); [|reflexivity].
  destruct x as [|c2 x]; [reflexivity|].
  cbn [String.append prefix]. destruct (ascii_dec "a" c2); [|reflexivity].
  destruct x as [|c3 x]; [reflexivity|].
  cbn [String.append prefix]. destruct (ascii_dec "k" c3); [|reflexivity].
  destruct x as [|c4 x]; [reflexivity|].
  cbn [String.append prefix]. destruct (ascii_dec "t" c4); [|reflexivity].
  destruct x as [|c5 x]; [reflexivity|].
  cbn [String.append prefix]. destruct (ascii_dec "i" c5); [|reflexivity].
  destruct x as [|c6 x]; [reflexivity|].
  cbn [String.append prefix]. destruct (ascii_dec "e" c6); [|reflexivity].
  now destruct x.
Qed.

Lemma replace_last_aktie s :
  Str.contains "-aktie" s = false ->
  Str.replace_from "-aktie" EmptyString 0 (s ++ "-aktie") = s.
Proof.
  induction s as [|c s IH]; intros H; [reflexivity|].
  apply contains_cons in H as [Hp Hc].
  change (String c s ++ "-aktie") with (String c (s ++ "-aktie")).
  cbn [Str.replace_from].
  change (String c (s ++ "-aktie")) with (String c s ++ "-aktie").
  rewrite prefix_aktie_boundary, Hp by discriminate.
  now rewrite IH.
Qed.

(** Line 470 takes apart what line 390 puts together. *)
Lemma link_identifier s :
  Str.contains "/" s = false -> Str.contains "-aktie" s = false ->
  Str.replace "-aktie" EmptyString
    (Str.replace "/aktien/" EmptyString ("/aktien/" ++ s ++ "-aktie"))
  = s.
Proof.
  intros H1 H2. unfold Str.replace at 2.
  cbn [String.append Str.replace_from prefix String.length Nat.sub].
  replace (prefix EmptyString (s ++ "-aktie")) with true
    by (now destruct (s ++ "-aktie")).
  cbn [String.append]. rewrite replace_no_slash by assumption.
  now apply replace_last_aktie.
Qed.

Lemma rstrip_last s c :
  Str.is_space c = false ->
  Str.rstrip (s ++ String c EmptyString) = s ++ String c EmptyString.
Proof.
  intros Hc. induction s as [|a s IH]; cbn [String.append Str.rstrip].
  - now rewrite Hc.
  - rewrite IH. now destruct s.
Qed.

Lemma strip_link s :
  Str.strip ("/aktien/" ++ s ++ "-aktie") = "/aktien/" ++ s ++ "-aktie".
Proof.
  unfold Str.strip.
  change (Str.lstrip ("/aktien/" ++ s ++ "-aktie")) with ("/aktien/" ++ s ++ "-aktie").
  replace ("/aktien/" ++ s ++ "-aktie")
    with (("/aktien/" ++ s ++ "-akti") ++ "e")
    by (now rewrite !append_assoc').
  now apply rstrip_last.
Qed.

Lemma join_one x : Str.join EmptyString [x] = x.
Proof. reflexivity. Qed.

Lemma requests_current_value E stock exchange results m w st :
  market E exchange = Ok m ->
  requests (run (get_current_value_lxml E stock exchange results) w st)
  = ["https://www.finanzen.net/aktien/" ++ stock ++ "-aktie" ++ fst m].
Proof.
  intros Hm. unfold run, get_current_value_lxml. cbn [run_from].
  rewrite Hm. cbn [lift bind]. rewrite run_requests_get.
  destruct (w 0%nat _) as [text|]; [|reflexivity].
  cbv zeta. cbn [requests]. f_equal.
  destruct (fromstring E text) as [parser|]; [|reflexivity].
  cbn [external lift bind].
  destruct (res_fold _ _ _) as [summary_data|e]; [|reflexivity].
  cbn [lift bind]. now rewrite run_from_lift.
Qed.

(** X10.  The identifier that [search_stock_lxml] reads off a row that links to
    "/aktien/<s>-aktie" is <s>, and [get_current_value_lxml] called with it
    asks for the page of that link. *)
Theorem search_identifier_round_trip E row s td0 td1 td2 tds :
  xpath_text E row ".//a//@href" = ["/aktien/" ++ s ++ "-aktie"] ->
  xpath E row ".//td" = td0 :: td1 :: td2 :: tds ->
  Str.contains "/" s = false ->
  Str.contains "-aktie" s = false ->
  (exists name isin wkn, search_lxml_row E row = Ok (name, s, isin, wkn))
  /\ forall exchange m results w st,
       market E exchange = Ok m ->
       requests (run (get_current_value_lxml E s exchange results) w st)
       = [base_url ++ ("/aktien/" ++ s ++ "-aktie") ++ fst m].
Proof.
  intros Hl Ht H1 H2. split.
  - unfold search_lxml_row. rewrite Hl, Ht. cbn [index nth_error res_bind].
    rewrite join_one, strip_link, link_identifier by assumption.
    eauto.
  - intros exchange m results w st Hm.
    rewrite (requests_current_value E s exchange results m w st Hm).
    unfold base_url. now rewrite !append_assoc'.
Qed.

Lemma search_identifier_round_trip_witness :
  (exists name isin wkn,
     search_lxml_row Sample.E
       (Sample.Row " BMW " "/aktien/bmw-aktie"
          [Sample.Td "BMW"; Sample.Td "DE0005190003"; Sample.Td "519000"])
     = Ok (name, "bmw", isin, wkn))
  /\ forall exchange m results w st,
       market Sample.E exchange = Ok m ->
       requests (run (get_current_value_lxml Sample.E "bmw" exchange results) w st)
       = [base_url ++ ("/aktien/" ++ "bmw" ++ "-aktie") ++ fst m].
Proof.
  exact (search_identifier_round_trip Sample.E
           (Sample.Row " BMW " "/aktien/bmw-aktie"
              [Sample.Td "BMW"; Sample.Td "DE0005190003"; Sample.Td "519000"])
           "bmw" _ _ _ _ eq_refl eq_refl eq_refl eq_refl).
Defined.

(** ** Dictionaries *)

Section DictFacts.

Context {K V : Type} (eqb : K -> K -> bool).
Hypothesis eqb_eq : forall a b, eqb a b = true <-> a = b.

Lemma in_keys_set k (v : V) d x :
  In x (Dict.keys (Dict.set eqb k v d)) -> x = k \/ In x (Dict.keys d).
Proof.
  induction d as [|[k' v'] d IH]; cbn.
  - intuition.
  - destruct (eqb k k'); cbn; intuition.
Qed.

Lemma in_set k (v : V) d x y :
  In (x, y) (Dict.set eqb k v d) -> y = v \/ In (x, y) d.
Proof.
  induction d as [|[k' v'] d IH]; cbn.
  - intros [[= _ <-]|[]]. now left.
  - destruct (eqb k k'); cbn.
    + intros [[= _ <-]|H]; auto.
    + intros [H|H]; auto. destruct (IH H); auto.
Qed.

Lemma NoDup_keys_set k (v : V) d :
  NoDup (Dict.keys d) -> NoDup (Dict.keys (Dict.set eqb k v d)).
Proof.
  induction d as [|[k' v'] d IH]; cbn; intros H.
  - constructor; [intros [] | constructor].
  - destruct (eqb k k') eqn:Ek; cbn; [assumption|].
    inversion H as [|? ? Hn Hd]; subst. constructor; [|now apply IH].
    intros Hin. apply in_keys_set in Hin as [->|Hin]; [|contradiction].
    assert (eqb k k = true) by now apply eqb_eq. congruence.
Qed.

Lemma of_pairs_from (l : list (K * V)) : forall acc,
  NoDup (Dict.keys acc) ->
  let d := fold_left (fun d kv => Dict.set eqb (fst kv) (snd kv) d) l acc in
  NoDup (Dict.keys d)
  /\ forall x, In x (Dict.keys d) -> In x (List.map fst l) \/ In x (Dict.keys acc).
Proof.
  induction l as [|[k v] l IH]; intros acc Hacc; cbn.
  - auto.
  - destruct (IH (Dict.set eqb k v acc) (NoDup_keys_set k v acc Hacc)) as [Hn Hi].
    split; [exact Hn|]. intros x Hx. destruct (Hi x Hx) as [H|H]; auto.
    apply in_keys_set in H as [->|H]; auto.
Qed.

Lemma of_pairs_keys (l : list (K * V)) :
  NoDup (Dict.keys (Dict.of_pairs eqb l))
  /\ incl (Dict.keys (Dict.of_pairs eqb l)) (List.map fst l).
Proof.
  destruct (of_pairs_from l [] (NoDup_nil _)) as [Hn Hi]. split; [exact Hn|].
  intros x Hx. destruct (Hi x Hx) as [H|[]]. exact H.
Qed.

End DictFacts.

Lemma string_eqb_eq a b : String.eqb a b = true <-> a = b.
Proof. apply String.eqb_eq. Qed.

(** ** The shape of a parsed table *)

Lemma parse_table_row_ok years d row d' :
  table_ok years d -> parse_table_row years d row = Ok d' -> table_ok years d'.
Proof.
  intros [Hn Hv]. unfold parse_table_row.
  destruct (Soup.get_text_opt _) as [name|]; [|discriminate]. cbn [res_bind].
  destruct (res_map fundamentals_cell _) as [vals|]; [|discriminate].
  cbn [res_bind]. intros [= <-]. split.
  - now apply (NoDup_keys_set String.eqb string_eqb_eq).
  - intros n yv Hin.
    destruct (in_set String.eqb _ _ _ _ _ Hin) as [->|Hin']; [|exact (Hv n yv Hin')].
    destruct (of_pairs_keys Z.eqb Z.eqb_eq (combine years vals)) as [Hk Hi].
    split; [exact Hk|]. intros y Hy. specialize (Hi y Hy).
    apply in_map_iff in Hi as ([y' v] & <- & Hc). now apply in_combine_l in Hc.
Qed.

Lemma parse_table_rows_ok years rows : forall d d',
  table_ok years d -> res_fold (parse_table_row years) rows d = Ok d' ->
  table_ok years d'.
Proof.
  induction rows as [|row rows IH]; intros d d' Hd; cbn [res_fold].
  - now intros [= <-].
  - destruct (parse_table_row years d row) as [d1|] eqn:R; [|discriminate].
    cbn [res_bind]. apply IH. now apply (parse_table_row_ok years d row).
Qed.

(** X11.  In a table that [_parse_table] returns every label occurs once, and
    under a label every year occurs once and is a year of the header. *)
Theorem parse_table_shape soup signaler d :
  _parse_table soup signaler = Ok d ->
  exists table years,
    Soup.find_text_parent "h2" signaler soup = Ok table
    /\ res_map (fun x => Num.int (Soup.get_text x))
         (skipn 2 (Soup.find_all "th" table)) = Ok years
    /\ table_ok years d.
Proof.
  unfold _parse_table.
  destruct (Soup.find_text_parent "h2" signaler soup) as [table|]; [|discriminate].
  cbn [res_bind].
  destruct (res_map _ (skipn 2 (Soup.find_all "th" table))) as [years|] eqn:Hy;
    [|discriminate].
  cbn [res_bind]. intros H. exists table, years.
  split; [reflexivity|]. split; [exact Hy|].
  refine (parse_table_rows_ok years _ [] d _ H).
  split; [constructor | intros ? ? []].
Qed.

Lemma parse_table_shape_witness :
  _parse_table Sample.guv_page "GuV"
  = Ok [("Umsatzerlöse",
         [(2020%Z, Some (Finite false 1000 0));
          (2021%Z, Some (Finite false 1200 0))])]
  /\ exists table years,
       Soup.find_text_parent "h2" "GuV" Sample.guv_page = Ok table
       /\ res_map (fun x => Num.int (Soup.get_text x))
            (skipn 2 (Soup.find_all "th" table)) = Ok years
       /\ table_ok years
            [("Umsatzerlöse",
              [(2020%Z, Some (Finite false 1000 0));
               (2021%Z, Some (Finite false 1200 0))])].
Proof.
  split; [reflexivity|].
  exact (parse_table_shape Sample.guv_page "GuV" _ eq_refl).
Defined.

(** ** The frame and the dictionary *)

Lemma run_get_estimates E stock output w st :
  Str.mem output ["dataframe"; "dict"] = true ->
  result (run (get_estimates E stock output) w st)
  = match w 0%nat ("https://www.finanzen.net/schaetzungen/" ++ strip_aktie stock) with
    | None => Err RequestException
    | Some src =>
        if check_data E (BeautifulSoup E src) then
          (d <- estimates_table (BeautifulSoup E src) ;;
           if output =? "dict" then Ok (EstimatesDict d)
           else (df <- pd_concat (estimates_frames d) ;; Ok (EstimatesFrame df)))%res
        else Err (NoDataException ("Could not find stock: " ++ strip_aktie stock))
    end.
Proof.
  intros Ho. unfold run, get_estimates. rewrite Ho. cbv [negb].
  rewrite run_make_soup. destruct (w 0%nat _) as [src|]; [|reflexivity].
  cbv zeta. cbn [result]. destruct (check_data E _); cbn [negb]; [|reflexivity].
  destruct (estimates_table _) as [d|e]; [|reflexivity].
  cbn [lift bind res_bind]. destruct (output =? "dict"); [reflexivity|].
  now rewrite run_from_lift.
Qed.

(** X12.  The frame of the estimates has the entries of the dictionary, a row
    for each label and year in their order; where the dictionary is empty
    the frame cannot be made and the call raises. *)
Theorem estimates_frame_of_dict E stock w st d :
  result (run (get_estimates E stock "dict") w st) = Ok (EstimatesDict d) ->
  result (run (get_estimates E stock "dataframe") w st)
  = match d with
    | [] => Err (ValueError "No objects to concatenate")
    | _ =>
        Ok (EstimatesFrame
              (flat_map (fun fv : string * label_values =>
                           List.map (fun yv : string * option pyfloat =>
                                       (fst fv, fst yv, snd yv))
                                    (snd fv))
                        d))
    end.
Proof.
  rewrite !run_get_estimates by reflexivity.
  destruct (w 0%nat _) as [src|]; [|discriminate].
  destruct (check_data E _); [|discriminate].
  destruct (estimates_table _) as [d'|e]; [|discriminate].
  cbn [res_bind]. change ("dict" =? "dict") with true.
  change ("dataframe" =? "dict") with false. cbv iota.
  intros [= <-]. destruct d' as [|fv d']; [reflexivity|].
  unfold pd_concat, estimates_frames. cbn [List.map res_bind].
  now rewrite flat_map_concat_map.
Qed.

Lemma estimates_frame_of_dict_witness :
  result (run (get_estimates Sample.E "bmw" "dict") Sample.site import_state)
  = Ok (EstimatesDict
          [("Dividende",
            [("2022e", Some (Finite false 580 (-2))); ("2023e", None)])])
  /\ result (run (get_estimates Sample.E "bmw" "dataframe") Sample.site import_state)
     = Ok (EstimatesFrame
             [("Dividende", "2022e", Some (Finite false 580 (-2)));
              ("Dividende", "2023e", None)]).
Proof.
  split; [reflexivity|].
  exact (estimates_frame_of_dict Sample.E "bmw" Sample.site import_state _ eq_refl).
Defined.

Lemma fundamentals_frames_all_parsed tables : forall acc,
  fundamentals_frames (all_parsed tables) acc
  = Ok (acc ++ metric_frames tables)%list.
Proof.
  induction tables as [|[c t] tables IH]; intros acc.
  - cbn. now rewrite app_nil_r.
  - cbn [all_parsed List.map fundamentals_frames fst snd].
    fold (all_parsed tables). rewrite IH.
    unfold metric_frames. cbn [flat_map fst snd]. now rewrite app_assoc.
Qed.

Lemma run_get_fundamentals_dict E stock w st d :
  result (run (get_fundamentals E stock "dict") w st) = Ok (FundamentalsDict d) ->
  exists src,
    w 0%nat ("https://www.finanzen.net/bilanz_guv/" ++ strip_aktie stock) = Some src
    /\ check_data E (BeautifulSoup E src) = true
    /\ d = sections (BeautifulSoup E src).
Proof.
  unfold run, get_fundamentals.
  change (negb (Str.mem "dict" ["dataframe"; "dict"])) with false. cbv iota.
  rewrite run_make_soup. destruct (w 0%nat _) as [src|]; [|discriminate].
  cbv zeta. cbn [result]. destruct (check_data E _) eqn:C; cbn [negb]; [|discriminate].
  change ("dict" =? "dict") with true. cbv iota. cbn [run_from result].
  intros [= <-]. now exists src.
Qed.

(** X13.  When the five sections were parsed, the frame of the fundamentals has
    the entries of the dictionary, a row for each category, metric and year
    in their order; where no section has a metric the frame cannot be made
    and the call raises. *)
Theorem fundamentals_frame_of_dict E stock w st tables :
  result (run (get_fundamentals E stock "dict") w st)
  = Ok (FundamentalsDict (all_parsed tables)) ->
  result (run (get_fundamentals E stock "dataframe") w st)
  = match metric_frames tables with
    | [] => Err (ValueError "No objects to concatenate")
    | frames => Ok (FundamentalsFrame (List.concat frames))
    end.
Proof.
  intros H. apply run_get_fundamentals_dict in H as (src & Hw & Hc & Hd).
  rewrite (run_get_fundamentals_frame E stock w st src Hw Hc), <- Hd.
  rewrite fundamentals_frames_all_parsed. cbn [res_bind app].
  now destruct (metric_frames tables).
Qed.

Lemma fundamentals_frame_of_dict_witness :
  result (run (get_fundamentals Sample.E "bmw" "dict") Sample.site import_state)
  = Ok (FundamentalsDict (all_parsed full_page_tables))
  /\ result (run (get_fundamentals Sample.E "bmw" "dataframe")
               Sample.site import_state)
     = match metric_frames full_page_tables with
       | [] => Err (ValueError "No objects to concatenate")
       | frames => Ok (FundamentalsFrame (List.concat frames))
       end.
Proof.
  split; [reflexivity|].
  exact (fundamentals_frame_of_dict Sample.E "bmw" Sample.site import_state
           full_page_tables eq_refl).
Defined.

(** X14.  The frame of a price is the one row of the dictionary, and the call
    for the frame fails where the call for the dictionary fails. *)
Theorem price_frame_of_dict E stock exchange w st :
  result (run (get_price E stock exchange "dataframe") w st)
  = match result (run (get_price E stock exchange "dict") w st) with
    | Ok v => Ok (price_frame v)
    | Err e => Err e
    end.
Proof.
  unfold run, get_price.
  destruct (Str.mem (Str.upper exchange) (exchanges E)); cbv [negb]; [|reflexivity].
  change (Str.mem (Str.lower "dataframe") ["dict"; "dataframe"]) with true.
  change (Str.mem (Str.lower "dict") ["dict"; "dataframe"]) with true. cbv iota.
  rewrite !run_make_soup. destruct (w 0%nat _) as [src|]; [|reflexivity].
  cbv zeta. cbn [result]. destruct (check_data E _); cbn [negb]; [|reflexivity].
  destruct (quote E _) as [[[p c] t]|e]; reflexivity.
Qed.

(** ** When the page is not there *)

(** X15.  When the request fails, the three retrieval functions raise the
    exception of [requests] after that one request; the guards around the
    sections of the fundamentals do not catch it. *)
Theorem request_failure_propagates E stock exchange output w st :
  Str.mem output ["dataframe"; "dict"] = true ->
  Str.mem (Str.upper exchange) (exchanges E) = true ->
  (forall url, w 0%nat url = None) ->
  run (get_fundamentals E stock output) w st
  = {| result := Err RequestException; final := st;
       requests := [fundamentals_url stock] |}
  /\ run (get_estimates E stock output) w st
     = {| result := Err RequestException; final := st;
          requests := [estimates_url stock] |}
  /\ run (get_price E stock exchange output) w st
     = {| result := Err RequestException; final := st;
          requests := [price_url stock exchange] |}.
Proof.
  intros Ho Hx Hw.
  assert (Hl : Str.mem (Str.lower output) ["dict"; "dataframe"] = true).
  { unfold Str.mem in *. cbn [existsb] in *. rewrite orb_false_r in *.
    apply orb_true_iff in Ho as [Ho|Ho]; apply String.eqb_eq in Ho; subst output;
      reflexivity. }
  unfold run, get_fundamentals, get_estimates, get_price.
  rewrite Ho, Hx, Hl. cbv [negb]. rewrite !run_make_soup, !Hw.
  repeat split.
Qed.

Lemma request_failure_propagates_witness :
  Str.mem "dict" ["dataframe"; "dict"] = true
  /\ Str.mem (Str.upper "fse") (exchanges Sample.E) = true
  /\ (forall url, offline 0%nat url = None)
  /\ run (get_fundamentals Sample.E "bmw-aktie" "dict") offline import_state
     = {| result := Err RequestException; final := import_state;
          requests := [fundamentals_url "bmw-aktie"] |}
  /\ run (get_estimates Sample.E "bmw-aktie" "dict") offline import_state
     = {| result := Err RequestException; final := import_state;
          requests := [estimates_url "bmw-aktie"] |}
  /\ run (get_price Sample.E "bmw-aktie" "fse" "dict") offline import_state
     = {| result := Err RequestException; final := import_state;
          requests := [price_url "bmw-aktie" "fse"] |}.
Proof.
  split; [reflexivity|]. split; [reflexivity|]. split; [reflexivity|].
  exact (request_failure_propagates Sample.E "bmw-aktie" "fse" "dict" offline
           import_state eq_refl eq_refl (fun _ => eq_refl)).
Defined.

(** X16.  When [check_data] does not accept the page, the three retrieval
    functions raise NoDataException after the one request, and the message
    names the identifier as it stands in the URL. *)
Theorem rejected_page_is_no_data E stock exchange output w st :
  Str.mem output ["dataframe"; "dict"] = true ->
  Str.mem (Str.upper exchange) (exchanges E) = true ->
  (forall url, exists src,
      w 0%nat url = Some src /\ check_data E (BeautifulSoup E src) = false) ->
  run (get_fundamentals E stock output) w st
  = {| result := Err (NoDataException ("Could not find stock: " ++ strip_aktie stock));
       final := st; requests := [fundamentals_url stock] |}
  /\ run (get_estimates E stock output) w st
     = {| result := Err (NoDataException ("Could not find stock: " ++ strip_aktie stock));
          final := st; requests := [estimates_url stock] |}
  /\ run (get_price E stock exchange output) w st
     = {| result := Err (NoDataException ("Could not find stock: " ++ Str.lower stock));
          final := st; requests := [price_url stock exchange] |}.
Proof.
  intros Ho Hx Hw.
  assert (Hl : Str.mem (Str.lower output) ["dict"; "dataframe"] = true).
  { unfold Str.mem in *. cbn [existsb] in *. rewrite orb_false_r in *.
    apply orb_true_iff in Ho as [Ho|Ho]; apply String.eqb_eq in Ho; subst output;
      reflexivity. }
  unfold run, get_fundamentals, get_estimates, get_price.
  rewrite Ho, Hx, Hl. cbv [negb]. rewrite !run_make_soup.
  split; [|split].
  - fold (fundamentals_url stock).
    destruct (Hw (fundamentals_url stock)) as (src & -> & C).
    cbv zeta. now rewrite C.
  - fold (estimates_url stock).
    destruct (Hw (estimates_url stock)) as (src & -> & C).
    cbv zeta. now rewrite C.
  - fold (price_url stock exchange).
    destruct (Hw (price_url stock exchange)) as (src & -> & C).
    cbv zeta. now rewrite C.
Qed.

Lemma rejected_page_is_no_data_witness :
  run (get_fundamentals rejecting_env "BMW-aktie" "dict") Sample.site import_state
  = {| result := Err (NoDataException "Could not find stock: bmw");
       final := import_state;
       requests := ["https://www.finanzen.net/bilanz_guv/bmw"] |}
  /\ run (get_estimates rejecting_env "BMW-aktie" "dict") Sample.site import_state
     = {| result := Err (NoDataException "Could not find stock: bmw");
          final := import_state;
          requests := ["https://www.finanzen.net/schaetzungen/bmw"] |}
  /\ run (get_price rejecting_env "BMW-aktie" "fse" "dict") Sample.site import_state
     = {| result := Err (NoDataException "Could not find stock: bmw-aktie");
          final := import_state;
          requests := ["https://www.finanzen.net/aktien/bmw-aktie@stBoerse_FSE"] |}.
Proof.
  exact (rejected_page_is_no_data rejecting_env "BMW-aktie" "fse" "dict"
           Sample.site import_state eq_refl eq_refl
           (fun url => ex_intro _ url (conj eq_refl eq_refl))).
Defined.

(** ** A page without the headings *)

Lemma find_none {A B} (p : B -> bool) (q : A * B -> bool) (l : list (A * B)) :
  filter p (List.map snd l) = [] ->
  List.find (fun ab => p (snd ab) && q ab) l = None.
Proof.
  induction l as [|[a b] l IH]; cbn; [reflexivity|].
  destruct (p b); [discriminate|]. exact IH.
Qed.

Lemma find_text_parent_none name pattern soup :
  Soup.find_all name soup = [] ->
  Soup.find_text_parent name pattern soup = Err AttributeError.
Proof.
  unfold Soup.find_all, Soup.descendants, Soup.find_text_parent. intros H.
  now rewrite (find_none (Soup.is_tag name) _ _ H).
Qed.

(** X17.  On a page without an h2 the five sections are [None]: the dictionary
    is returned with them, and the frame is refused. *)
Theorem fundamentals_without_headings E stock w st src :
  w 0%nat (fundamentals_url stock) = Some src ->
  check_data E (BeautifulSoup E src) = true ->
  Soup.find_all "h2" (BeautifulSoup E src) = [] ->
  result (run (get_fundamentals E stock "dict") w st)
  = Ok (FundamentalsDict
          [("Quotes", None); ("Key Ratios", None); ("Income Statement", None);
           ("Balance Sheet", None); ("Other", None)])
  /\ result (run (get_fundamentals E stock "dataframe") w st) = Err TypeError.
Proof.
  intros Hw Hc Hh.
  assert (S : sections (BeautifulSoup E src)
              = [("Quotes", None); ("Key Ratios", None); ("Income Statement", None);
                 ("Balance Sheet", None); ("Other", None)]).
  { unfold sections, _parse_table.
    now rewrite !(find_text_parent_none "h2" _ _ Hh). }
  split.
  - unfold run, get_fundamentals.
    change (negb (Str.mem "dict" ["dataframe"; "dict"])) with false. cbv iota.
    rewrite run_make_soup. fold (fundamentals_url stock). rewrite Hw.
    cbv zeta. cbn [result]. rewrite Hc. cbn [negb].
    change ("dict" =? "dict") with true. cbv iota. cbn [run_from result].
    f_equal. f_equal. exact S.
  - rewrite (run_get_fundamentals_frame E stock w st src Hw Hc), S. reflexivity.
Qed.

Lemma fundamentals_without_headings_witness :
  Soup.find_all "h2" Sample.price_page = []
  /\ result (run (get_fundamentals Sample.E "bmw" "dict") price_pages import_state)
     = Ok (FundamentalsDict
             [("Quotes", None); ("Key Ratios", None); ("Income Statement", None);
              ("Balance Sheet", None); ("Other", None)])
  /\ result (run (get_fundamentals Sample.E "bmw" "dataframe") price_pages import_state)
     = Err TypeError.
Proof.
  split; [reflexivity|].
  exact (fundamentals_without_headings Sample.E "bmw" price_pages import_state
           _ eq_refl eq_refl eq_refl).
Defined.

(** X18.  On a page without an h1 the estimates raise AttributeError, whatever
    the output format. *)
Theorem estimates_without_heading E stock output w st src :
  Str.mem output ["dataframe"; "dict"] = true ->
  w 0%nat (estimates_url stock) = Some src ->
  check_data E (BeautifulSoup E src) = true ->
  Soup.find_all "h1" (BeautifulSoup E src) = [] ->
  run (get_estimates E stock output) w st
  = {| result := Err AttributeError; final := st;
       requests := [estimates_url stock] |}.
Proof.
  intros Ho Hw Hc Hh. unfold run, get_estimates. rewrite Ho. cbv [negb].
  rewrite run_make_soup. fold (estimates_url stock). rewrite Hw.
  cbv zeta. rewrite Hc. cbn [negb]. unfold estimates_table.
  now rewrite (find_text_parent_none "h1" _ _ Hh).
Qed.

Lemma estimates_without_heading_witness :
  Soup.find_all "h1" Sample.price_page = []
  /\ run (get_estimates Sample.E "bmw" "dict") price_pages import_state
     = {| result := Err AttributeError; final := import_state;
          requests := [estimates_url "bmw"] |}.
Proof.
  split; [reflexivity|].
  exact (estimates_without_heading Sample.E "bmw" "dict" price_pages import_state
           _ eq_refl eq_refl eq_refl eq_refl).
Defined.

(** ** The helpers on a page without the table, and with an unknown exchange *)

(** X19.  [get_estimates_lxml] on a page where the query finds no row: the
    frame was never bound, and the return raises UnboundLocalError; the
    warning has been given. *)
Theorem estimates_lxml_without_rows E stock results w st text parser :
  w 0%nat ("https://www.finanzen.net/schaetzungen/" ++ stock) = Some text ->
  fromstring E text = Some parser ->
  xpath E parser estimates_xp_data = [] ->
  run (get_estimates_lxml E stock results) w st
  = {| result := Err UnboundLocalError;
       final := warn estimates_lxml_warning st;
       requests := ["https://www.finanzen.net/schaetzungen/" ++ stock] |}.
Proof.
  intros Hw Hp Hx. unfold run, get_estimates_lxml. cbn [run_from]. cbv zeta.
  rewrite run_requests_get, Hw. cbv zeta. rewrite Hp. cbn [external lift bind].
  change (xpath E parser _) with (xpath E parser estimates_xp_data).
  rewrite Hx. reflexivity.
Qed.

Lemma estimates_lxml_without_rows_witness :
  xpath Sample.E Sample.search_tree estimates_xp_data = []
  /\ run (get_estimates_lxml Sample.E "bmw" results_get_estimates_lxml)
        Sample.site import_state
     = {| result := Err UnboundLocalError;
          final := warn estimates_lxml_warning import_state;
          requests := ["https://www.finanzen.net/schaetzungen/" ++ "bmw"] |}.
Proof.
  split; [reflexivity|].
  exact (estimates_lxml_without_rows Sample.E "bmw" results_get_estimates_lxml
           Sample.site import_state _ _ eq_refl eq_refl eq_refl).
Defined.

(** X20.  [get_current_value_lxml] with an exchange that [StockMarkets] does not
    have raises KeyError before any request, after the warning; the
    argument is looked up as it is given. *)
Theorem current_value_unknown_exchange E stock exchange results w st :
  Dict.get String.eqb exchange (StockMarkets E) = None ->
  run (get_current_value_lxml E stock exchange results) w st
  = {| result := Err KeyError;
       final := warn current_value_lxml_warning st;
       requests := [] |}.
Proof.
  intros H. unfold run, get_current_value_lxml, market. cbn [run_from].
  now rewrite H.
Qed.

Lemma current_value_unknown_exchange_witness :
  Dict.get String.eqb "tgt" (StockMarkets Sample.E) = None
  /\ run (get_current_value_lxml Sample.E "bmw" "tgt" results_get_current_value_lxml)
        Sample.site import_state
     = {| result := Err KeyError;
          final := warn current_value_lxml_warning import_state;
          requests := [] |}.
Proof.
  split; [reflexivity|].
  exact (current_value_unknown_exchange Sample.E "bmw" "tgt"
           results_get_current_value_lxml Sample.site import_state eq_refl).
Defined.

(** ** The values of the old estimates *)

Lemma prefix_empty s : prefix EmptyString s = true.
Proof. now destruct s. Qed.

Lemma replace_char c new s :
  Str.replace (String c EmptyString) new s = Str.re_sub_char c new s.
Proof.
  unfold Str.replace. induction s as [|a s IH]; [reflexivity|].
  cbn [Str.replace_from Str.re_sub_char prefix String.length Nat.sub].
  destruct (ascii_dec c a) as [->|n].
  - now rewrite prefix_empty, Ascii.eqb_refl, IH.
  - replace (Ascii.eqb a c) with false
      by (symmetry; apply Ascii.eqb_neq; congruence).
    now rewrite IH.
Qed.

Lemma split_first a rest : forall cur,
  no_space a = true -> blank_or_empty rest = true ->
  index (Str.split_from " " 0 cur (a ++ rest)) 0 = Ok (cur ++ a).
Proof.
  induction a as [|c a IH]; intros cur Ha Hr.
  - cbn [String.append]. rewrite append_empty_r.
    destruct rest as [|r rest]; [reflexivity|].
    cbn [blank_or_empty] in Hr. apply Ascii.eqb_eq in Hr. subst r.
    cbn [Str.split_from prefix]. cbn. now rewrite prefix_empty.
  - cbn [no_space] in Ha. apply andb_true_iff in Ha as [Hc Ha].
    apply negb_true_iff in Hc.
    cbn [String.append Str.split_from prefix].
    destruct (ascii_dec " " c) as [<-|n]; [discriminate|].
    rewrite IH by assumption. now rewrite append_assoc'.
Qed.

Lemma blank_or_empty_kept suffix :
  blank_or_empty suffix = true ->
  blank_or_empty
    (Str.re_sub_char "," "." (Str.re_sub_char "." EmptyString suffix)) = true.
Proof.
  destruct suffix as [|c s]; [reflexivity|]. cbn [blank_or_empty].
  intros H. apply Ascii.eqb_eq in H. now subst c.
Qed.

(** X21.  [get_estimates_lxml] reads a number in the German notation with its
    sign, and leaves out what follows it after a blank. *)
Theorem estimates_lxml_value_keeps_sign g suffix :
  German.well_formed g = true -> blank_or_empty suffix = true ->
  estimates_lxml_value (CStr (German.render g ++ suffix))
  = Ok (CFloat (German.value g)).
Proof.
  intros H Hs. unfold estimates_lxml_value.
  rewrite (render_not_dash g suffix H). cbn [negb]. cbv zeta.
  rewrite !replace_char, !re_sub_char_app, (normalized_text g H).
  unfold Str.split.
  rewrite (split_first (plain g) _ EmptyString (no_space_plain g H)
             (blank_or_empty_kept suffix Hs)).
  cbn [String.append res_bind]. now rewrite (float_plain_text g H).
Qed.

Lemma estimates_lxml_value_keeps_sign_witness :
  German.well_formed
    {| German.negative := true; German.head := [5%N];
       German.groups := []; German.decimals := [8%N; 0%N] |} = true
  /\ blank_or_empty " EUR" = true
  /\ estimates_lxml_value (CStr "-5,80 EUR") = Ok (CFloat (Finite true 580 (-2))).
Proof.
  split; [reflexivity|]. split; [reflexivity|].
  exact (estimates_lxml_value_keeps_sign
           {| German.negative := true; German.head := [5%N];
              German.groups := []; German.decimals := [8%N; 0%N] |}
           " EUR" eq_refl eq_refl).
Defined.

(** ** A section with a cell that cannot be read *)

Lemma res_map_fails {A B} (f : A -> res B) l x e :
  In x l -> f x = Err e -> exists e', res_map f l = Err e'.
Proof.
  induction l as [|a l IH]; intros Hin Hf; [destruct Hin|].
  cbn [res_map]. destruct (f a) as [b|e0] eqn:Fa; [|now exists e0].
  cbn [res_bind]. destruct Hin as [->|Hin]; [congruence|].
  destruct (IH Hin Hf) as [e' ->]. now exists e'.
Qed.

Lemma res_fold_fails {A S} (body : S -> A -> res S) l x :
  In x l -> (forall s, exists e, body s x = Err e) ->
  forall s, exists e, res_fold body l s = Err e.
Proof.
  induction l as [|a l IH]; intros Hin Hb s; [destruct Hin|].
  cbn [res_fold]. destruct Hin as [->|Hin].
  - destruct (Hb s) as [e ->]. now exists e.
  - destruct (body s a) as [s'|e]; [|now exists e].
    cbn [res_bind]. now apply IH.
Qed.

(** X22.  A section is kept whole or not at all: one cell that [float] cannot
    read, in any row, and the section is [None]. *)
Theorem unreadable_cell_drops_section soup signaler table years row x e :
  Soup.find_text_parent "h2" signaler soup = Ok table ->
  res_map (fun th => Num.int (Soup.get_text th))
    (skipn 2 (Soup.find_all "th" table)) = Ok years ->
  In row (skipn 1 (Soup.find_all "tr" table)) ->
  In x (List.map Soup.get_text (skipn 2 (Soup.find_all "td" row))) ->
  fundamentals_cell x = Err e ->
  try_or_none (_parse_table soup signaler) = None.
Proof.
  intros Ht Hy Hr Hx He. unfold _parse_table. rewrite Ht. cbn [res_bind].
  rewrite Hy. cbn [res_bind].
  destruct (res_fold_fails (parse_table_row years) _ row Hr) with (s := @nil (string * year_values))
    as [e' ->]; [|reflexivity].
  intros d. unfold parse_table_row.
  destruct (Soup.get_text_opt _) as [name|e0]; [|now exists e0].
  cbn [res_bind]. destruct (res_map_fails fundamentals_cell _ x e Hx He) as [e' ->].
  now exists e'.
Qed.

Lemma unreadable_cell_drops_section_witness :
  fundamentals_cell "n/a" = Err Num.float_error
  /\ try_or_none (_parse_table unreadable_page "GuV") = None.
Proof.
  split; [reflexivity|].
  refine (unreadable_cell_drops_section unreadable_page "GuV" _ [2020%Z; 2021%Z]
            (Tag "tr" [] []
               (Tag "td" [] [] []
                :: Tag "td" ["font-bold"] [] [NavigableString "Ergebnis"]
                :: List.map (Sample.text_tag "td") ["n/a"; "12"]))
            "n/a" Num.float_error eq_refl eq_refl _ _ eq_refl).
  - cbn. right. now left.
  - cbn. now left.
Defined.

(** ** The record of a price *)

(** X23.  What a price is made of when [get_price] returns it as a dictionary:
    the price, the currency and the time read off the page that was asked
    for, the identifier in lower case and the exchange in upper case. *)
Theorem price_dict_fields E stock exchange w st v :
  result (run (get_price E stock exchange "dict") w st) = Ok v ->
  exists src p c t,
    w 0%nat (price_url stock exchange) = Some src
    /\ quote E (BeautifulSoup E src) = Ok (p, c, t)
    /\ v = PriceDict {| Price := p; Currency := c; Timestamp := t;
                        Stock := Str.lower stock;
                        Exchange := Str.upper exchange |}.
Proof.
  unfold run, get_price.
  destruct (Str.mem (Str.upper exchange) (exchanges E)); cbv [negb]; [|discriminate].
  change (Str.mem (Str.lower "dict") ["dict"; "dataframe"]) with true. cbv iota.
  rewrite run_make_soup. fold (price_url stock exchange).
  destruct (w 0%nat _) as [src|]; [|discriminate].
  cbv zeta. cbn [result]. destruct (check_data E _); cbn [negb]; [|discriminate].
  destruct (quote E _) as [[[p c] t]|e] eqn:Q; [|discriminate].
  cbn. intros [= <-]. now exists src, p, c, t.
Qed.

Lemma price_dict_fields_witness :
  result (run (get_price Sample.E "BMW-aktie" "fse" "dict") Sample.site import_state)
  = Ok (PriceDict {| Price := Finite false 9532 (-2); Currency := "EUR";
                     Timestamp := "2021-03-05 17:35:12" : datetime Sample.E;
                     Stock := "bmw-aktie"; Exchange := "FSE" |})
  /\ exists src p c t,
       Sample.site 0%nat (price_url "BMW-aktie" "fse") = Some src
       /\ quote Sample.E (BeautifulSoup Sample.E src) = Ok (p, c, t)
       /\ PriceDict {| Price := Finite false 9532 (-2); Currency := "EUR";
                       Timestamp := "2021-03-05 17:35:12" : datetime Sample.E;
                       Stock := "bmw-aktie"; Exchange := "FSE" |}
          = PriceDict {| Price := p; Currency := c; Timestamp := t;
                         Stock := Str.lower "BMW-aktie";
                         Exchange := Str.upper "fse" |}.
Proof.
  split; [reflexivity|].
  exact (price_dict_fields Sample.E "BMW-aktie" "fse" Sample.site import_state
           _ eq_refl).
Defined.

(** ** The warning of the old helpers *)

Lemma silent_bind {A B} (m : prog A) (k : A -> prog B) :
  silent m -> (forall a, silent (k a)) -> silent (bind m k).
Proof. intros Hm Hk. induction Hm; cbn; auto; now constructor. Qed.

Lemma silent_lift {A} (m : res A) : silent (lift m).
Proof. destruct m; constructor. Qed.

Lemma silent_requests_get url : silent (requests_get url).
Proof. constructor. intros [body|]; constructor. Qed.

Lemma silent_check_site url : silent (check_site_availability url).
Proof. constructor. intros [body|]; constructor. Qed.

Lemma silent_for_each {A S} (body : S -> A -> prog S) l :
  (forall s x, silent (body s x)) -> forall s, silent (for_each l s body).
Proof.
  intros Hb. induction l as [|x l IH]; intros s; cbn [for_each].
  - constructor.
  - apply silent_bind; [apply Hb | apply IH].
Qed.

Ltac silent_step :=
  match goal with
  | |- silent (let _ := _ in _) => cbv zeta
  | |- silent (if ?b then _ else _) => destruct b
  | |- silent (match ?x with _ => _ end) => destruct x
  | |- silent (bind _ _) => apply silent_bind; [|intros]
  | |- silent (for_each _ _ _) => apply silent_for_each; intros
  | |- silent (lift _) => apply silent_lift
  | |- silent (requests_get _) => apply silent_requests_get
  | |- silent (check_site_availability _) => apply silent_check_site
  | |- silent (Ret _) => constructor
  | |- silent (Raise _) => constructor
  end.

Lemma silent_get_parser E function stock_name :
  silent (get_parser E function stock_name).
Proof. unfold get_parser. repeat silent_step. Qed.

Lemma run_silent {A} (p : prog A) :
  silent p -> forall w i st, final (run_from p w i st) = st.
Proof.
  induction 1 as [a|e|url k Hk IH]; intros w i st; cbn; auto.
Qed.

Lemma silent_make_soup E url : silent (_make_soup E url).
Proof. unfold _make_soup. repeat silent_step. Qed.

Lemma silent_exec_body E c :
  match warning_of c with
  | Some msg => exists k, exec E c = Warn msg k /\ silent k
  | None => silent (exec E c)
  end.
Proof.
  destruct c; cbn [warning_of exec].
  - unfold get_fundamentals. repeat (silent_step || apply silent_make_soup).
  - unfold get_estimates. repeat (silent_step || apply silent_make_soup).
  - unfold get_price. repeat (silent_step || apply silent_make_soup).
  - unfold search_stock, search. repeat (silent_step || apply silent_make_soup).
  - repeat silent_step.
  - repeat (silent_step || apply silent_get_parser).
  - unfold get_estimates_lxml. cbn [bind]. eexists. split; [reflexivity|].
    repeat silent_step.
  - unfold get_fundamentals_lxml. cbn [bind]. eexists. split; [reflexivity|].
    repeat (silent_step || apply silent_get_parser).
  - unfold get_current_value_lxml. cbn [bind]. eexists. split; [reflexivity|].
    repeat silent_step.
  - unfold search_stock_lxml. repeat (silent_step || apply silent_get_parser).
Qed.

(** X24.  What a call leaves changed in the process: a deprecated helper has
    handed its warning to [warnings.warn], once, whether it returns or
    raises; [search_stock_lxml] and the six other functions have handed
    over none.  No list object is changed. *)
Theorem warning_per_call E c w st :
  final (run (exec E c) w st)
  = match warning_of c with
    | Some msg => {| heap := heap st; warned := (warned st ++ [msg])%list |}
    | None => st
    end.
Proof.
  unfold run. pose proof (silent_exec_body E c) as H.
  destruct (warning_of c) as [msg|].
  - destruct H as (k & -> & Hk). cbn [run_from].
    now rewrite (run_silent k Hk).
  - now apply run_silent.
Qed.
